(** * Home Assistant tool gateway (src/mcp_server.py)

    A shallow embedding of the dispatcher [call_tool], of the gateway
    methods of [HomeAssistantMCP] it relies on and of the catalogue
    [list_tools], followed by the properties the specification states
    about them.

    Strings are byte strings (UTF-8): equality, concatenation, emptiness
    and [startswith] agree with Python's on the encoded text. *)

From Stdlib Require Import String Ascii List ZArith Bool Lia.
From Stdlib Require Import DecimalString.
From Stdlib Require Import Floats.PrimFloat.
Import ListNotations.

Local Open Scope string_scope.
Local Open Scope list_scope.

Set Implicit Arguments.
Set Warnings "-register-all".

(** ** Values

    What [json] decoding produces in Python: [None], [bool], [int],
    [float], [str], [list] and [dict].  A [dict] keeps its insertion
    order, which [json.dumps] prints, so it is an association list whose
    lookup takes the first binding of a key. *)

Inductive json : Type :=
| JNull
| JBool (b : bool)
| JInt (z : Z)
| JFloat (f : float)
| JStr (s : string)
| JList (l : list json)
| JObj (m : list (string * json)).

Definition dict := list (string * json).

(** [k in d] *)
Fixpoint dict_mem (k : string) (d : dict) : bool :=
  match d with
  | [] => false
  | (k', _) :: d' => if String.eqb k k' then true else dict_mem k d'
  end.

(** [d[k]] when [k in d] *)
Fixpoint dict_lookup (k : string) (d : dict) : option json :=
  match d with
  | [] => None
  | (k', v) :: d' => if String.eqb k k' then Some v else dict_lookup k d'
  end.

(** [d.get(k, default)] *)
Definition dict_get_default (k : string) (default : json) (d : dict) : json :=
  match dict_lookup k d with
  | Some v => v
  | None => default
  end.

(** [d.get(k)] *)
Definition dict_get (k : string) (d : dict) : json :=
  dict_get_default k JNull d.

(** [d[k] = v]: the binding is replaced in place, or appended. *)
Fixpoint dict_set (k : string) (v : json) (d : dict) : dict :=
  match d with
  | [] => [(k, v)]
  | (k', v') :: d' =>
      if String.eqb k k' then (k', v) :: d' else (k', v') :: dict_set k v d'
  end.

(** [bool(v)], as [not v] and [if v] test it. *)
Definition truthy (v : json) : bool :=
  match v with
  | JNull => false
  | JBool b => b
  | JInt z => negb (Z.eqb z 0)
  | JFloat f => negb (PrimFloat.eqb f PrimFloat.zero)
  | JStr s => negb (String.eqb s "")
  | JList l => match l with [] => false | _ => true end
  | JObj m => match m with [] => false | _ => true end
  end.

(** [v == s] for a string literal [s]: only an equal [str] compares equal. *)
Definition eq_str (v : json) (s : string) : bool :=
  match v with
  | JStr s' => String.eqb s' s
  | _ => false
  end.

(** [type(v).__name__] *)
Definition type_name (v : json) : string :=
  match v with
  | JNull => "NoneType"
  | JBool _ => "bool"
  | JInt _ => "int"
  | JFloat _ => "float"
  | JStr _ => "str"
  | JList _ => "list"
  | JObj _ => "dict"
  end.

(** [s.startswith(p)] *)
Fixpoint startswith (s p : string) : bool :=
  match p with
  | EmptyString => true
  | String c p' =>
      match s with
      | EmptyString => false
      | String d s' => if Ascii.eqb c d then startswith s' p' else false
      end
  end.

(** [p in s] on strings. *)
Fixpoint contains (s p : string) : bool :=
  if startswith s p then true
  else match s with
       | EmptyString => false
       | String _ s' => contains s' p
       end.

Definition nl : string := String (ascii_of_nat 10) EmptyString.

(** [str(n)] for a length. *)
Definition str_nat (n : nat) : string := NilZero.string_of_uint (Nat.to_uint n).

(** ** The Python runtime the server runs on

    [json.dumps(v, indent=2)] and [str(v)] of a value that is not a [str]
    are library code; the model takes them as they are. *)

Record runtime : Type := {
  json_dumps : json -> string;
  py_repr : json -> string
}.

(** ** Exceptions

    [AttributeError] is what the dispatcher's own code raises on decoded
    JSON (a method looked up on a value that does not have it),
    [ValueError] what [call_ha_api] raises itself; the other two come out
    of the HTTP library. *)

Inductive exn : Type :=
| AttributeError (ty attr : string)
| ValueError (msg : string)
| AiohttpClientError (msg : string)
| OtherException (msg : string).

(** [str(e)] *)
Definition exn_str (e : exn) : string :=
  match e with
  | AttributeError ty attr =>
      "'" ++ ty ++ "' object has no attribute '" ++ attr ++ "'"
  | ValueError msg => msg
  | AiohttpClientError msg => msg
  | OtherException msg => msg
  end.

(** ** Backend requests

    A request is addressed to [HOME_ASSISTANT_URL/api/<endpoint>].  The
    HTTP library either hands back the decoded body or raises, with an
    [aiohttp.ClientError] or with another exception. *)

Inductive http_method : Type := GET | POST.

Record request : Type := {
  req_method : http_method;
  req_endpoint : string;
  req_json : option dict
}.

Inductive http_outcome : Type :=
| Response (v : json)
| ClientError (msg : string)
| OtherError (msg : string).

(** ** Programs

    A handler is a tree of backend requests that ends in a value or in
    a raised exception. *)

Inductive prog (A : Type) : Type :=
| Ret (a : A)
| Raise (e : exn)
| Http (r : request) (k : http_outcome -> prog A).

Arguments Ret {A} a.
Arguments Raise {A} e.
Arguments Http {A} r k.

Fixpoint bind {A B : Type} (p : prog A) (f : A -> prog B) : prog B :=
  match p with
  | Ret a => f a
  | Raise e => Raise e
  | Http r k => Http r (fun o => bind (k o) f)
  end.

(** [try: p except Exception as e: h e] *)
Fixpoint try_except {A : Type} (p : prog A) (h : exn -> prog A) : prog A :=
  match p with
  | Ret a => Ret a
  | Raise e => h e
  | Http r k => Http r (fun o => try_except (k o) h)
  end.

Declare Scope prog_scope.
Delimit Scope prog_scope with prog.
Notation "x <- p ;; q" := (bind p (fun x => q))
  (at level 61, p at next level, right associativity) : prog_scope.
Local Open Scope prog_scope.

(** [for x in xs: ...] collecting one value per element; the first fault
    ends the loop. *)
Fixpoint for_each {A B : Type} (f : A -> prog B) (xs : list A) : prog (list B) :=
  match xs with
  | [] => Ret []
  | x :: xs' => y <- f x ;; ys <- for_each f xs' ;; Ret (y :: ys)
  end.

(** [[x for x in xs if f x]] *)
Fixpoint filter_m {A : Type} (f : A -> prog bool) (xs : list A) : prog (list A) :=
  match xs with
  | [] => Ret []
  | x :: xs' =>
      b <- f x ;; ys <- filter_m f xs' ;; Ret (if b then x :: ys else ys)
  end.

(** *** Running a program against a backend

    The backend answers a request knowing the requests this dispatch has
    already sent.  A run gives the outcome and the requests sent, oldest
    first. *)

Definition backend := list request -> request -> http_outcome.

Inductive outcome (A : Type) : Type :=
| Ok (a : A)
| Exn (e : exn).

Arguments Ok {A} a.
Arguments Exn {A} e.

Fixpoint run_from {A : Type} (be : backend) (sent : list request) (p : prog A)
  : outcome A * list request :=
  match p with
  | Ret a => (Ok a, sent)
  | Raise e => (Exn e, sent)
  | Http r k => run_from be (sent ++ [r]) (k (be sent r))
  end.

Definition run {A : Type} (be : backend) (p : prog A) : outcome A * list request :=
  run_from be [] p.

(** ** The catalogue: [list_tools] *)

Record property : Type := {
  p_type : string;
  p_description : string;
  p_enum : option (list string);
  p_minimum : option Z;
  p_maximum : option Z
}.

Record schema : Type := {
  properties : list (string * property);
  required : list string
}.

Record Tool : Type := {
  name : string;
  description : string;
  inputSchema : schema
}.

Definition prop (ty descr : string) : property :=
  {| p_type := ty; p_description := descr; p_enum := None;
     p_minimum := None; p_maximum := None |}.

Definition prop_enum (ty : string) (values : list string) (descr : string) : property :=
  {| p_type := ty; p_description := descr; p_enum := Some values;
     p_minimum := None; p_maximum := None |}.

Definition prop_range (ty descr : string) (lo hi : Z) : property :=
  {| p_type := ty; p_description := descr; p_enum := None;
     p_minimum := Some lo; p_maximum := Some hi |}.

Definition list_tools : list Tool :=
  [ {| name := "get_all_devices";
       description := "Get a list of all devices and their current states";
       inputSchema := {| properties := []; required := [] |} |};
    {| name := "get_devices_by_type";
       description := "Get devices of a specific type (light, switch, climate, etc.)";
       inputSchema :=
         {| properties :=
              [("device_type",
                prop "string" "Type of device (e.g., 'light', 'switch', 'climate')")];
            required := ["device_type"] |} |};
    {| name := "get_device_state";
       description := "Get the current state of a specific device";
       inputSchema :=
         {| properties :=
              [("entity_id",
                prop "string" "Entity ID of the device (e.g., 'light.living_room')")];
            required := ["entity_id"] |} |};
    {| name := "control_light";
       description := "Control a light device (turn on/off, adjust brightness, color)";
       inputSchema :=
         {| properties :=
              [("entity_id", prop "string" "Entity ID of the light");
               ("action",
                prop_enum "string" ["turn_on"; "turn_off"; "toggle"] "Action to perform");
               ("brightness",
                prop_range "number" "Brightness level (0-255), optional" 0 255);
               ("color_temp",
                prop_range "number" "Color temperature in Kelvin, optional" 150 500)];
            required := ["entity_id"; "action"] |} |};
    {| name := "control_switch";
       description := "Control a switch device (turn on/off/toggle)";
       inputSchema :=
         {| properties :=
              [("entity_id", prop "string" "Entity ID of the switch");
               ("action",
                prop_enum "string" ["turn_on"; "turn_off"; "toggle"] "Action to perform")];
            required := ["entity_id"; "action"] |} |};
    {| name := "control_climate";
       description := "Control climate devices (temperature, mode)";
       inputSchema :=
         {| properties :=
              [("entity_id", prop "string" "Entity ID of the climate device");
               ("action",
                prop_enum "string" ["set_temperature"; "set_mode"] "Action to perform");
               ("temperature",
                prop "number" "Target temperature (required for set_temperature)");
               ("mode",
                prop_enum "string" ["heat"; "cool"; "auto"; "off"]
                  "Climate mode (required for set_mode)")];
            required := ["entity_id"; "action"] |} |} ].

(** Lookups in the catalogue. *)
Fixpoint find_tool (n : string) (tools : list Tool) : option Tool :=
  match tools with
  | [] => None
  | t :: tools' => if String.eqb (name t) n then Some t else find_tool n tools'
  end.

Fixpoint find_property (k : string) (ps : list (string * property)) : option property :=
  match ps with
  | [] => None
  | (k', p) :: ps' => if String.eqb k k' then Some p else find_property k ps'
  end.

Definition tool_names : list string := map name list_tools.

(** ** The gateway: [HomeAssistantMCP] *)

Section Server.

Variable rt : runtime.

(** [f"{v}"]: a [str] is inserted as it is. *)
Definition py_str (v : json) : string :=
  match v with
  | JStr s => s
  | _ => py_repr rt v
  end.

(** [session.get] / [session.post] followed by [response.json()]. *)
Definition http (r : request) : prog json :=
  Http r (fun o =>
    match o with
    | Response v => Ret v
    | ClientError msg => Raise (AiohttpClientError msg)
    | OtherError msg => Raise (OtherException msg)
    end).

Definition error_dict (msg : string) : json := JObj [("error", JStr msg)].

Definition call_ha_api (endpoint method : string) (data : option dict) : prog json :=
  try_except
    (if String.eqb method "GET" then
       http {| req_method := GET; req_endpoint := endpoint; req_json := None |}
     else if String.eqb method "POST" then
       http {| req_method := POST; req_endpoint := endpoint; req_json := data |}
     else
       Raise (ValueError ("Unsupported HTTP method: " ++ method)))
    (fun e =>
       match e with
       | AiohttpClientError msg => Ret (error_dict ("HTTP client error: " ++ msg))
       | _ => Ret (error_dict (exn_str e))
       end).

Definition get_states : prog (list json) :=
  result <- call_ha_api "states" "GET" None ;;
  match result with
  | JList l => Ret l
  | _ => Ret []
  end.

Definition get_state (entity_id : json) : prog json :=
  call_ha_api ("states/" ++ py_str entity_id) "GET" None.

Definition call_service (domain service : string) (data : dict) : prog json :=
  call_ha_api ("services/" ++ domain ++ "/" ++ service) "POST" (Some data).

(** [v.get(k, default)] on a decoded value. *)
Definition py_get (v : json) (k : string) (default : json) : prog json :=
  match v with
  | JObj m => Ret (dict_get_default k default m)
  | _ => Raise (AttributeError (type_name v) "get")
  end.

(** [v.startswith(p)] on a decoded value. *)
Definition py_startswith (v : json) (p : string) : prog bool :=
  match v with
  | JStr s => Ret (startswith s p)
  | _ => Raise (AttributeError (type_name v) "startswith")
  end.

Definition get_devices_by_type (device_type : json) : prog (list json) :=
  states <- get_states ;;
  filter_m
    (fun state =>
       e <- py_get state "entity_id" (JStr "") ;;
       py_startswith e (py_str device_type ++ "."))
    states.

(** ** The dispatcher: [call_tool] *)

Record TextContent : Type := {
  type : string;
  text : string
}.

Definition text_content (s : string) : list TextContent :=
  [ {| type := "text"; text := s |} ].

(** The projection both listing tools apply to every state. *)
Definition device_entry (state : json) : prog json :=
  e <- py_get state "entity_id" JNull ;;
  s <- py_get state "state" JNull ;;
  a <- py_get state "attributes" (JObj []) ;;
  Ret (JObj [("entity_id", e); ("state", s); ("attributes", a)]).

(** [if k in arguments: data[k] = arguments[k]] *)
Definition copy_if_present (k : string) (arguments data : dict) : dict :=
  match dict_lookup k arguments with
  | Some v => dict_set k v data
  | None => data
  end.

(** Branch [name == "get_all_devices"]. *)
Definition tool_get_all_devices : prog (list TextContent) :=
  states <- get_states ;;
  devices <- for_each device_entry states ;;
  Ret (text_content
         ("Found " ++ str_nat (length devices) ++ " devices:" ++ nl
            ++ json_dumps rt (JList devices))).

(** Branch [name == "get_devices_by_type"]. *)
Definition tool_get_devices_by_type (arguments : dict) : prog (list TextContent) :=
  let device_type := dict_get "device_type" arguments in
  if negb (truthy device_type) then
    Ret (text_content "Error: device_type is required")
  else
    devices <- get_devices_by_type device_type ;;
    device_list <- for_each device_entry devices ;;
    Ret (text_content
           ("Found " ++ str_nat (length device_list) ++ " " ++ py_str device_type
              ++ " devices:" ++ nl ++ json_dumps rt (JList device_list))).

(** Branch [name == "get_device_state"]. *)
Definition tool_get_device_state (arguments : dict) : prog (list TextContent) :=
  let entity_id := dict_get "entity_id" arguments in
  if negb (truthy entity_id) then
    Ret (text_content "Error: entity_id is required")
  else
    state <- get_state entity_id ;;
    Ret (text_content
           ("Device " ++ py_str entity_id ++ " state:" ++ nl ++ json_dumps rt state)).

(** Branch [name == "control_light"]. *)
Definition tool_control_light (arguments : dict) : prog (list TextContent) :=
  let entity_id := dict_get "entity_id" arguments in
  let action := dict_get "action" arguments in
  if negb (truthy entity_id) || negb (truthy action) then
    Ret (text_content "Error: entity_id and action are required")
  else
    let data := [("entity_id", entity_id)] in
    let completed result :=
      Ret (text_content
             ("Light " ++ py_str entity_id ++ " " ++ py_str action ++ " result:" ++ nl
                ++ json_dumps rt result)) in
    if eq_str action "turn_on" then
      let data := copy_if_present "brightness" arguments data in
      let data := copy_if_present "color_temp" arguments data in
      result <- call_service "light" "turn_on" data ;; completed result
    else if eq_str action "turn_off" then
      result <- call_service "light" "turn_off" data ;; completed result
    else if eq_str action "toggle" then
      result <- call_service "light" "toggle" data ;; completed result
    else
      Ret (text_content ("Error: Invalid action '" ++ py_str action ++ "'")).

(** Branch [name == "control_switch"]. *)
Definition tool_control_switch (arguments : dict) : prog (list TextContent) :=
  let entity_id := dict_get "entity_id" arguments in
  let action := dict_get "action" arguments in
  if negb (truthy entity_id) || negb (truthy action) then
    Ret (text_content "Error: entity_id and action are required")
  else
    let data := [("entity_id", entity_id)] in
    let completed result :=
      Ret (text_content
             ("Switch " ++ py_str entity_id ++ " " ++ py_str action ++ " result:" ++ nl
                ++ json_dumps rt result)) in
    if eq_str action "turn_on" then
      result <- call_service "switch" "turn_on" data ;; completed result
    else if eq_str action "turn_off" then
      result <- call_service "switch" "turn_off" data ;; completed result
    else if eq_str action "toggle" then
      result <- call_service "switch" "toggle" data ;; completed result
    else
      Ret (text_content ("Error: Invalid action '" ++ py_str action ++ "'")).

(** Branch [name == "control_climate"]. *)
Definition tool_control_climate (arguments : dict) : prog (list TextContent) :=
  let entity_id := dict_get "entity_id" arguments in
  let action := dict_get "action" arguments in
  if negb (truthy entity_id) || negb (truthy action) then
    Ret (text_content "Error: entity_id and action are required")
  else
    let data := [("entity_id", entity_id)] in
    let completed result :=
      Ret (text_content
             ("Climate " ++ py_str entity_id ++ " " ++ py_str action ++ " result:" ++ nl
                ++ json_dumps rt result)) in
    if eq_str action "set_temperature" then
      match dict_lookup "temperature" arguments with
      | None => Ret (text_content "Error: temperature is required for set_temperature")
      | Some temperature =>
          let data := dict_set "temperature" temperature data in
          result <- call_service "climate" "set_temperature" data ;; completed result
      end
    else if eq_str action "set_mode" then
      match dict_lookup "mode" arguments with
      | None => Ret (text_content "Error: mode is required for set_mode")
      | Some mode =>
          let data := dict_set "hvac_mode" mode data in
          result <- call_service "climate" "set_hvac_mode" data ;; completed result
      end
    else
      Ret (text_content ("Error: Invalid action '" ++ py_str action ++ "'")).

(** The [if]/[elif] chain on the tool name: the body of the handler's
    [try]. *)
Definition dispatch (name : string) (arguments : dict) : prog (list TextContent) :=
  if String.eqb name "get_all_devices" then tool_get_all_devices
  else if String.eqb name "get_devices_by_type" then tool_get_devices_by_type arguments
  else if String.eqb name "get_device_state" then tool_get_device_state arguments
  else if String.eqb name "control_light" then tool_control_light arguments
  else if String.eqb name "control_switch" then tool_control_switch arguments
  else if String.eqb name "control_climate" then tool_control_climate arguments
  else Ret (text_content ("Error: Unknown tool '" ++ name ++ "'")).

(** The handler.  Entering and leaving [ha_client] opens and closes the
    HTTP session and sends nothing. *)
Definition call_tool (name : string) (arguments : dict) : prog (list TextContent) :=
  try_except (dispatch name arguments)
    (fun e => Ret (text_content ("Error: " ++ exn_str e))).

End Server.

Arguments call_tool rt name arguments : simpl never.

(** ** What the gateway hands back *)

(** What [call_ha_api] returns for each outcome of the HTTP exchange. *)
Definition gateway_result (o : http_outcome) : json :=
  match o with
  | Response v => v
  | ClientError msg => error_dict ("HTTP client error: " ++ msg)
  | OtherError msg => error_dict msg
  end.

Definition states_request : request :=
  {| req_method := GET; req_endpoint := "states"; req_json := None |}.

Definition service_request (domain service : string) (data : dict) : request :=
  {| req_method := POST;
     req_endpoint := "services/" ++ domain ++ "/" ++ service;
     req_json := Some data |}.

(** [get_states] keeps a list and turns everything else into [[]]. *)
Definition states_of (v : json) : list json :=
  match v with
  | JList l => l
  | _ => []
  end.

(** ** Vocabulary of the properties *)

(** The text of the single block a dispatch answered with. *)
Definition answered (res : outcome (list TextContent) * list request) (s : string) : Prop :=
  fst res = Ok (text_content s).

(** The parameters a call must carry: those the catalogue entry lists as
    required and, for [control_climate], the one its selected action
    needs (the catalogue says so in the descriptions of [temperature] and
    [mode]). *)
Definition listed_required (name : string) : list string :=
  match find_tool name list_tools with
  | Some t => required (inputSchema t)
  | None => []
  end.

Definition action_required (name : string) (arguments : dict) : list string :=
  if String.eqb name "control_climate" then
    if eq_str (dict_get "action" arguments) "set_temperature" then ["temperature"]
    else if eq_str (dict_get "action" arguments) "set_mode" then ["mode"]
    else []
  else [].


(** The values the catalogue enumerates for [action]. *)
Definition action_enum (name : string) : list string :=
  match find_tool name list_tools with
  | Some t =>
      match find_property "action" (properties (inputSchema t)) with
      | Some p => match p_enum p with Some vs => vs | None => [] end
      | None => []
      end
  | None => []
  end.

(** A state as the backend is meant to send it: an object whose
    [entity_id], when there is one, is a string. *)
Definition device_state (v : json) : Prop :=
  exists m s, v = JObj m /\ dict_get_default "entity_id" (JStr "") m = JStr s.

(** The entry the listing tools print for a state. *)
Definition entry_of (state : json) : json :=
  match state with
  | JObj m =>
      JObj [("entity_id", dict_get "entity_id" m);
            ("state", dict_get "state" m);
            ("attributes", dict_get_default "attributes" (JObj []) m)]
  | _ => JNull
  end.

(** An object whose [entity_id] is a string starting with [p]. *)
Definition entity_id_startswith (p : string) (v : json) : bool :=
  match v with
  | JObj m =>
      match dict_lookup "entity_id" m with
      | Some (JStr s) => startswith s p
      | _ => false
      end
  | _ => false
  end.

(** [k: arguments[k]] when the call carries [k], nothing otherwise. *)
Definition provided (k : string) (arguments : dict) : dict :=
  match dict_lookup k arguments with
  | Some v => [(k, v)]
  | None => []
  end.

(** [arguments] without the parameter [k]. *)
Fixpoint without (k : string) (arguments : dict) : dict :=
  match arguments with
  | [] => []
  | (k', v) :: d => if String.eqb k k' then without k d else (k', v) :: without k d
  end.

(** ** A runtime and backends to run examples on

    [sample_runtime] prints [None], booleans, integers, lists, objects
    and strings that need no escape the way CPython does; the examples
    use nothing else. *)

Definition dq : string := String (ascii_of_nat 34) EmptyString.

Definition str_Z (z : Z) : string := NilZero.string_of_int (Z.to_int z).

Fixpoint sample_dumps (indent : string) (v : json) : string :=
  let inner := (indent ++ "  ")%string in
  (match v with
  | JNull => "null"
  | JBool b => if b then "true" else "false"
  | JInt z => str_Z z
  | JFloat _ => "NaN"
  | JStr s => dq ++ s ++ dq
  | JList [] => "[]"
  | JList (x :: l) =>
      "[" ++ nl ++ inner ++ sample_dumps inner x
        ++ (fix items (l : list json) : string :=
              match l with
              | [] => ""
              | y :: l' => "," ++ nl ++ inner ++ sample_dumps inner y ++ items l'
              end) l
        ++ nl ++ indent ++ "]"
  | JObj [] => "{}"
  | JObj ((k, x) :: m) =>
      "{" ++ nl ++ inner ++ dq ++ k ++ dq ++ ": " ++ sample_dumps inner x
        ++ (fix items (m : list (string * json)) : string :=
              match m with
              | [] => ""
              | (k', y) :: m' =>
                  "," ++ nl ++ inner ++ dq ++ k' ++ dq ++ ": " ++ sample_dumps inner y
                    ++ items m'
              end) m
        ++ nl ++ indent ++ "}"
  end)%string.

Fixpoint sample_repr (v : json) : string :=
  (match v with
  | JNull => "None"
  | JBool b => if b then "True" else "False"
  | JInt z => str_Z z
  | JFloat _ => "nan"
  | JStr s => "'" ++ s ++ "'"
  | JList [] => "[]"
  | JList (x :: l) =>
      "[" ++ sample_repr x
        ++ (fix items (l : list json) : string :=
              match l with
              | [] => ""
              | y :: l' => ", " ++ sample_repr y ++ items l'
              end) l
        ++ "]"
  | JObj [] => "{}"
  | JObj ((k, x) :: m) =>
      "{'" ++ k ++ "': " ++ sample_repr x
        ++ (fix items (m : list (string * json)) : string :=
              match m with
              | [] => ""
              | (k', y) :: m' => ", '" ++ k' ++ "': " ++ sample_repr y ++ items m'
              end) m
        ++ "}"
  end)%string.

Definition sample_runtime : runtime :=
  {| json_dumps := sample_dumps ""; py_repr := sample_repr |}.

(** A backend that cannot be reached. *)
Definition unreachable : backend :=
  fun _ _ => ClientError "Cannot connect to host 192.168.200.111:8123".

(** A backend that answers every request with [v]. *)
Definition answering (v : json) : backend := fun _ _ => Response v.

Definition living_room : json :=
  JObj [("entity_id", JStr "light.living_room"); ("state", JStr "on");
        ("attributes", JObj [("brightness", JInt 120)])].

Definition kitchen : json :=
  JObj [("entity_id", JStr "switch.kitchen"); ("state", JStr "off")].

Definition hall : json :=
  JObj [("entity_id", JStr "climate.hall"); ("state", JStr "heat");
        ("attributes", JObj [])].

(** The test [get_devices_by_type] applies to a state, on states where
    it does not fault. *)
Definition state_startswith (p : string) (state : json) : bool :=
  match state with
  | JObj m =>
      match dict_get_default "entity_id" (JStr "") m with
      | JStr s => startswith s p
      | _ => false
      end
  | _ => false
  end.

(** The text a tool answers with when a parameter it tests is missing. *)
Definition missing_text (name : string) : string :=
  if String.eqb name "get_devices_by_type" then "Error: device_type is required"
  else if String.eqb name "get_device_state" then "Error: entity_id is required"
  else "Error: entity_id and action are required".

(** The message of a transport fault, as [call_ha_api] words it. *)
Definition fault_message (o : http_outcome) : option string :=
  match o with
  | Response _ => None
  | ClientError msg => Some ("HTTP client error: " ++ msg)%string
  | OtherError msg => Some msg
  end.

(** A handler all of whose answers are a single text block. *)
Inductive single_text : prog (list TextContent) -> Prop :=
| single_text_ret (s : string) : single_text (Ret (text_content s))
| single_text_raise (e : exn) : single_text (Raise e)
| single_text_http (r : request) (k : http_outcome -> prog (list TextContent)) :
    (forall o, single_text (k o)) -> single_text (Http r k).

(** ** Traffic of a handler *)

(** A program that sends nothing. *)
Inductive silent {A : Type} : prog A -> Prop :=
| silent_ret (a : A) : silent (Ret a)
| silent_raise (e : exn) : silent (Raise e).

(** A program that sends [r] and nothing else, whatever the answer. *)
Inductive asks {A : Type} (r : request) : prog A -> Prop :=
| asks_http (k : http_outcome -> prog A) :
    (forall o, silent (k o)) -> asks r (Http r k).

(** ** What the catalogue asks of a call

    A call is [accepted] when its tool is in the catalogue, every
    parameter the entry lists as required has a non-empty value, the
    action is one of the values the entry enumerates (for an entry that
    has an [action]), and the parameter the action needs is there. *)

Definition required_given (name : string) (arguments : dict) : bool :=
  forallb (fun p => truthy (dict_get p arguments)) (listed_required name).

Definition action_listed (name : string) (arguments : dict) : bool :=
  match find_tool name list_tools with
  | Some t =>
      match find_property "action" (properties (inputSchema t)) with
      | Some p =>
          match p_enum p with
          | Some values => existsb (eq_str (dict_get "action" arguments)) values
          | None => true
          end
      | None => true
      end
  | None => false
  end.

Definition action_params_given (name : string) (arguments : dict) : bool :=
  forallb (fun p => dict_mem p arguments) (action_required name arguments).

Definition accepted (name : string) (arguments : dict) : bool :=
  required_given name arguments && action_listed name arguments
  && action_params_given name arguments.

(** The services of a domain that the dispatcher knows. *)
Definition services_of (domain : string) : list string :=
  if String.eqb domain "climate" then ["set_temperature"; "set_hvac_mode"]
  else ["turn_on"; "turn_off"; "toggle"].

Definition domain_of_tool : list (string * string) :=
  [("control_light", "light"); ("control_switch", "switch");
   ("control_climate", "climate")].

(** The keys a service body can hold, and the parameter each is read
    from. *)
Definition payload_keys : list string :=
  ["entity_id"; "brightness"; "color_temp"; "temperature"; "hvac_mode"].

Definition source_key (k : string) : string :=
  if String.eqb k "hvac_mode" then "mode" else k.

(** A body built from the call: [entity_id] is there, and every field is
    one of [payload_keys] with the value the call carries for it. *)
Definition payload_from (arguments data : dict) : Prop :=
  dict_lookup "entity_id" data = Some (dict_get "entity_id" arguments) /\
  forall k v, In (k, v) data ->
              In k payload_keys /\ dict_get (source_key k) arguments = v.

(** The requests a call of [name] may send. *)
Definition permitted (rt : runtime) (name : string) (arguments : dict)
           (r : request) : Prop :=
  (In name ["get_all_devices"; "get_devices_by_type"] /\ r = states_request) \/
  (name = "get_device_state" /\
   r = {| req_method := GET;
          req_endpoint := "states/" ++ py_str rt (dict_get "entity_id" arguments);
          req_json := None |}) \/
  (exists domain service data,
      In (name, domain) domain_of_tool /\ In service (services_of domain) /\
      r = service_request domain service data /\ payload_from arguments data).

(** The parameters the dispatcher reads. *)
Definition read_keys : list string :=
  ["device_type"; "entity_id"; "action"; "brightness"; "color_temp";
   "temperature"; "mode"].

(** ** Faults in a state list *)

Definition is_object (v : json) : bool :=
  match v with
  | JObj _ => true
  | _ => false
  end.

(** The fault the type filter raises on a state, if any. *)
Definition entity_id_fault (state : json) : option exn :=
  match state with
  | JObj m =>
      match dict_get_default "entity_id" (JStr "") m with
      | JStr _ => None
      | v => Some (AttributeError (type_name v) "startswith")
      end
  | v => Some (AttributeError (type_name v) "get")
  end.

(** ** Entity ids and domains *)

Fixpoint has_dot (s : string) : bool :=
  match s with
  | EmptyString => false
  | String c s' => if Ascii.eqb c "." then true else has_dot s'
  end.

(** The part of [s] before its first dot. *)
Fixpoint domain_of (s : string) : string :=
  match s with
  | EmptyString => EmptyString
  | String c s' => if Ascii.eqb c "." then EmptyString else String c (domain_of s')
  end.

(** A state whose [entity_id] is [<domain>.<rest>] for the given domain. *)
Definition in_domain (domain : string) (state : json) : bool :=
  match state with
  | JObj m =>
      match dict_get_default "entity_id" (JStr "") m with
      | JStr s => has_dot s && String.eqb (domain_of s) domain
      | _ => false
      end
  | _ => false
  end.

(** ** Settings read at start-up

    The module reads three variables of the environment when it is
    loaded.  [str.lower] is modelled on the letters A to Z: the
    characters outside ASCII that it changes do not become a letter of
    [true], the only text the result is compared with. *)

Definition environ := string -> option string.

(** [os.getenv(k, default)] *)
Definition getenv (env : environ) (k default : string) : string :=
  match env k with
  | Some v => v
  | None => default
  end.

Definition lower_ascii (c : ascii) : ascii :=
  let n := nat_of_ascii c in
  if Nat.leb 65 n && Nat.leb n 90 then ascii_of_nat (n + 32) else c.

(** [s.lower()] *)
Fixpoint lower (s : string) : string :=
  match s with
  | EmptyString => EmptyString
  | String c s' => String (lower_ascii c) (lower s')
  end.

Record settings : Type := {
  HOME_ASSISTANT_URL : string;
  HOME_ASSISTANT_TOKEN : option string;
  VERIFY_SSL : bool
}.

Definition load_settings (env : environ) : settings :=
  {| HOME_ASSISTANT_URL := getenv env "HOME_ASSISTANT_URL" "http://192.168.200.111:8123";
     HOME_ASSISTANT_TOKEN := env "HOME_ASSISTANT_TOKEN";
     VERIFY_SSL := String.eqb (lower (getenv env "VERIFY_SSL" "true")) "true" |}.

Unset Implicit Arguments.

(** ** Running programs: general facts *)

Section RunFacts.

Variable be : backend.

Lemma run_from_bind (A B : Type) (p : prog A) (f : A -> prog B) :
  forall sent,
    run_from be sent (bind p f) =
    match run_from be sent p with
    | (Ok a, sent') => run_from be sent' (f a)
    | (Exn e, sent') => (Exn e, sent')
    end.
Proof.
  induction p as [a | e | r k IH]; intro sent; simpl; auto.
Qed.

Lemma run_from_try_except (A : Type) (p : prog A) (h : exn -> prog A) :
  forall sent,
    run_from be sent (try_except p h) =
    match run_from be sent p with
    | (Ok a, sent') => (Ok a, sent')
    | (Exn e, sent') => run_from be sent' (h e)
    end.
Proof.
  induction p as [a | e | r k IH]; intro sent; simpl; auto.
Qed.

(** A handler that answers with a value leaves no exception behind. *)
Lemma run_from_try_except_total (A : Type) (p : prog A) (h : exn -> A) :
  forall sent,
    exists a, fst (run_from be sent (try_except p (fun e => Ret (h e)))) = Ok a.
Proof.
  intro sent. rewrite run_from_try_except.
  destruct (run_from be sent p) as [[a | e] sent']; simpl; eauto.
Qed.

End RunFacts.

(** ** The gateway boundary *)

Section GatewayFacts.

Variable rt : runtime.
Variable be : backend.

Lemma run_call_ha_api_get (endpoint : string) (data : option dict) (sent : list request) :
  let r := {| req_method := GET; req_endpoint := endpoint; req_json := None |} in
  run_from be sent (call_ha_api endpoint "GET" data) =
  (Ok (gateway_result (be sent r)), sent ++ [r]).
Proof.
  unfold call_ha_api. cbn.
  destruct (be sent _) as [v | msg | msg]; reflexivity.
Qed.

Lemma run_call_ha_api_post (endpoint : string) (data : option dict) (sent : list request) :
  let r := {| req_method := POST; req_endpoint := endpoint; req_json := data |} in
  run_from be sent (call_ha_api endpoint "POST" data) =
  (Ok (gateway_result (be sent r)), sent ++ [r]).
Proof.
  unfold call_ha_api. cbn.
  destruct (be sent _) as [v | msg | msg]; reflexivity.
Qed.

(** Whatever the method, [call_ha_api] returns a value. *)
Lemma call_ha_api_never_raises (endpoint method : string) (data : option dict)
      (sent : list request) :
  exists v, fst (run_from be sent (call_ha_api endpoint method data)) = Ok v.
Proof.
  unfold call_ha_api. rewrite run_from_try_except.
  match goal with
  | |- context [run_from be sent ?p] => destruct (run_from be sent p) as [[v | e] s]
  end.
  - simpl. eauto.
  - destruct e; simpl; eauto.
Qed.

Lemma run_call_service (domain service : string) (data : dict) (sent : list request) :
  run_from be sent (call_service domain service data) =
  (Ok (gateway_result (be sent (service_request domain service data))),
   sent ++ [service_request domain service data]).
Proof.
  unfold call_service. apply run_call_ha_api_post.
Qed.

Lemma run_get_state (entity_id : json) (sent : list request) :
  let r := {| req_method := GET; req_endpoint := "states/" ++ py_str rt entity_id;
              req_json := None |} in
  run_from be sent (get_state rt entity_id) =
  (Ok (gateway_result (be sent r)), sent ++ [r]).
Proof.
  unfold get_state. apply run_call_ha_api_get.
Qed.


Lemma run_get_states (sent : list request) :
  run_from be sent get_states =
  (Ok (states_of (gateway_result (be sent states_request))), sent ++ [states_request]).
Proof.
  unfold get_states. rewrite run_from_bind.
  rewrite (run_call_ha_api_get "states" None sent).
  fold states_request.
  destruct (gateway_result (be sent states_request)); reflexivity.
Qed.

End GatewayFacts.

(** ** The dispatcher: how a call runs *)

Section DispatchFacts.

Variable rt : runtime.
Variable be : backend.

(** The handler's [except] clause turns a fault of the body into text. *)
Lemma run_call_tool (name : string) (arguments : dict) :
  run be (call_tool rt name arguments) =
  match run be (dispatch rt name arguments) with
  | (Ok blocks, sent) => (Ok blocks, sent)
  | (Exn e, sent) => (Ok (text_content ("Error: " ++ exn_str e)), sent)
  end.
Proof.
  unfold run, call_tool. rewrite run_from_try_except.
  destruct (run_from be [] (dispatch rt name arguments)) as [[blocks | e] sent];
    reflexivity.
Qed.

(** A branch that answers without the backend. *)
Lemma run_call_tool_pure (name : string) (arguments : dict) (blocks : list TextContent) :
  dispatch rt name arguments = Ret blocks ->
  run be (call_tool rt name arguments) = (Ok blocks, []).
Proof.
  intro H. rewrite run_call_tool, H. reflexivity.
Qed.

(** A branch that invokes one service and prints what came back. *)
Lemma run_call_tool_service (name : string) (arguments : dict)
      (domain service : string) (data : dict) (render : json -> string) :
  dispatch rt name arguments =
    (result <- call_service domain service data ;;
     Ret (text_content (render result))) ->
  run be (call_tool rt name arguments) =
  (Ok (text_content
         (render (gateway_result (be [] (service_request domain service data))))),
   [service_request domain service data]).
Proof.
  intro H. rewrite run_call_tool, H. unfold run.
  rewrite run_from_bind, run_call_service. reflexivity.
Qed.

Lemma for_each_device_entry (states : list json) :
  Forall device_state states ->
  for_each (device_entry) states = Ret (map entry_of states).
Proof.
  induction 1 as [| state states [m [s [-> _]]] _ IH]; simpl.
  - reflexivity.
  - rewrite IH. reflexivity.
Qed.

Lemma filter_m_startswith (p : string) (states : list json) :
  Forall device_state states ->
  filter_m (fun state =>
              e <- py_get state "entity_id" (JStr "") ;; py_startswith e p) states
  = Ret (filter (state_startswith p) states).
Proof.
  induction 1 as [| state states [m [s [-> Hs]]] _ IH]; simpl.
  - reflexivity.
  - rewrite IH, Hs. reflexivity.
Qed.

Lemma filter_device_state (f : json -> bool) (states : list json) :
  Forall device_state states -> Forall device_state (filter f states).
Proof.
  induction 1 as [| state states Hd _ IH]; simpl; auto.
  destruct (f state); auto.
Qed.

End DispatchFacts.

(** ** Dictionaries and strings *)

Lemma startswith_empty (p : string) :
  p <> "" -> startswith "" p = false.
Proof.
  destruct p; [congruence | reflexivity].
Qed.

Lemma append_nonempty (s t : string) :
  t <> "" -> (s ++ t)%string <> "".
Proof.
  destruct s; simpl; [auto | discriminate].
Qed.

(** On a state, the printed entry passes the test the filter applied. *)
Lemma entity_id_startswith_entry (p : string) (state : json) :
  p <> "" -> device_state state ->
  entity_id_startswith p (entry_of state) = state_startswith p state.
Proof.
  intros Hp [m [s [-> Hs]]]. simpl.
  unfold dict_get, dict_get_default in *.
  destruct (dict_lookup "entity_id" m) as [v |].
  - subst v. reflexivity.
  - symmetry. injection Hs as <-. apply startswith_empty, Hp.
Qed.

Lemma filter_entries (p : string) (states : list json) :
  p <> "" -> Forall device_state states ->
  map entry_of (filter (state_startswith p) states) =
  filter (entity_id_startswith p) (map entry_of states).
Proof.
  intros Hp. induction 1 as [| state states Hd _ IH]; simpl.
  - reflexivity.
  - rewrite (entity_id_startswith_entry p state Hp Hd).
    destruct (state_startswith p state); simpl; rewrite IH; reflexivity.
Qed.

Lemma dict_mem_lookup (k : string) (d : dict) :
  dict_mem k d = false <-> dict_lookup k d = None.
Proof.
  induction d as [| [k' v] d IH]; simpl.
  - tauto.
  - destruct (String.eqb k k'); [split; discriminate | exact IH].
Qed.

Lemma dict_get_absent (k : string) (d : dict) :
  dict_lookup k d = None -> dict_get k d = JNull.
Proof.
  unfold dict_get, dict_get_default. intros ->. reflexivity.
Qed.

Lemma dict_get_present (k : string) (d : dict) (v : json) :
  dict_lookup k d = Some v -> dict_get k d = v.
Proof.
  unfold dict_get, dict_get_default. intros ->. reflexivity.
Qed.

Lemma dict_lookup_without_same (k : string) (d : dict) :
  dict_lookup k (without k d) = None.
Proof.
  induction d as [| [k' v] d IH]; simpl; auto.
  destruct (String.eqb k k') eqn:E; simpl; auto. rewrite E. exact IH.
Qed.

Lemma dict_lookup_without_other (k k' : string) (d : dict) :
  k <> k' -> dict_lookup k' (without k d) = dict_lookup k' d.
Proof.
  intro Hk. induction d as [| [k0 v] d IH]; simpl; auto.
  destruct (String.eqb k k0) eqn:E.
  - apply String.eqb_eq in E. subst k0.
    destruct (String.eqb k' k) eqn:E'; auto.
    apply String.eqb_eq in E'. congruence.
  - simpl. rewrite IH. reflexivity.
Qed.

Lemma eq_str_true (v : json) (s : string) :
  eq_str v s = true <-> v = JStr s.
Proof.
  destruct v; simpl; try (split; discriminate).
  rewrite String.eqb_eq. split; congruence.
Qed.

Lemma copied_optional_fields (arguments : dict) (entity_id : json) :
  copy_if_present "color_temp" arguments
    (copy_if_present "brightness" arguments [("entity_id", entity_id)])
  = [("entity_id", entity_id)] ++ provided "brightness" arguments
      ++ provided "color_temp" arguments.
Proof.
  unfold copy_if_present, provided.
  destruct (dict_lookup "brightness" arguments) as [b |];
    destruct (dict_lookup "color_temp" arguments) as [c |]; reflexivity.
Qed.

(** ** The validation steps of the branches *)

Section ValidationFacts.

Variable rt : runtime.

Lemma falsy_either (a b : json) :
  truthy a = false \/ truthy b = false ->
  negb (truthy a) || negb (truthy b) = true.
Proof.
  intros [-> | ->]; simpl; auto using orb_true_r.
Qed.

Lemma truthy_both (a b : json) :
  truthy a = true -> truthy b = true ->
  negb (truthy a) || negb (truthy b) = false.
Proof.
  intros -> ->. reflexivity.
Qed.

Lemma get_devices_by_type_requires (arguments : dict) :
  truthy (dict_get "device_type" arguments) = false ->
  dispatch rt "get_devices_by_type" arguments =
  Ret (text_content "Error: device_type is required").
Proof.
  intro H. change (dispatch rt "get_devices_by_type" arguments)
    with (tool_get_devices_by_type rt arguments).
  unfold tool_get_devices_by_type. rewrite H. reflexivity.
Qed.

Lemma get_device_state_requires (arguments : dict) :
  truthy (dict_get "entity_id" arguments) = false ->
  dispatch rt "get_device_state" arguments =
  Ret (text_content "Error: entity_id is required").
Proof.
  intro H. change (dispatch rt "get_device_state" arguments)
    with (tool_get_device_state rt arguments).
  unfold tool_get_device_state. rewrite H. reflexivity.
Qed.

Lemma control_light_requires (arguments : dict) :
  truthy (dict_get "entity_id" arguments) = false
  \/ truthy (dict_get "action" arguments) = false ->
  dispatch rt "control_light" arguments =
  Ret (text_content "Error: entity_id and action are required").
Proof.
  intro H. change (dispatch rt "control_light" arguments)
    with (tool_control_light rt arguments).
  unfold tool_control_light. rewrite (falsy_either _ _ H). reflexivity.
Qed.

Lemma control_switch_requires (arguments : dict) :
  truthy (dict_get "entity_id" arguments) = false
  \/ truthy (dict_get "action" arguments) = false ->
  dispatch rt "control_switch" arguments =
  Ret (text_content "Error: entity_id and action are required").
Proof.
  intro H. change (dispatch rt "control_switch" arguments)
    with (tool_control_switch rt arguments).
  unfold tool_control_switch. rewrite (falsy_either _ _ H). reflexivity.
Qed.

Lemma control_climate_requires (arguments : dict) :
  truthy (dict_get "entity_id" arguments) = false
  \/ truthy (dict_get "action" arguments) = false ->
  dispatch rt "control_climate" arguments =
  Ret (text_content "Error: entity_id and action are required").
Proof.
  intro H. change (dispatch rt "control_climate" arguments)
    with (tool_control_climate rt arguments).
  unfold tool_control_climate. rewrite (falsy_either _ _ H). reflexivity.
Qed.

(** What the three control branches do once both tests have passed. *)
Lemma control_light_validated (arguments : dict) :
  truthy (dict_get "entity_id" arguments) = true ->
  truthy (dict_get "action" arguments) = true ->
  let entity_id := dict_get "entity_id" arguments in
  let action := dict_get "action" arguments in
  let completed result :=
    Ret (text_content
           ("Light " ++ py_str rt entity_id ++ " " ++ py_str rt action ++ " result:" ++ nl
              ++ json_dumps rt result)) in
  dispatch rt "control_light" arguments =
  if eq_str action "turn_on" then
    result <- call_service "light" "turn_on"
                ([("entity_id", entity_id)] ++ provided "brightness" arguments
                   ++ provided "color_temp" arguments) ;;
    completed result
  else if eq_str action "turn_off" then
    result <- call_service "light" "turn_off" [("entity_id", entity_id)] ;;
    completed result
  else if eq_str action "toggle" then
    result <- call_service "light" "toggle" [("entity_id", entity_id)] ;;
    completed result
  else Ret (text_content ("Error: Invalid action '" ++ py_str rt action ++ "'")).
Proof.
  intros He Ha. cbv zeta.
  change (dispatch rt "control_light" arguments) with (tool_control_light rt arguments).
  unfold tool_control_light. rewrite (truthy_both _ _ He Ha).
  rewrite copied_optional_fields. reflexivity.
Qed.

Lemma control_switch_validated (arguments : dict) :
  truthy (dict_get "entity_id" arguments) = true ->
  truthy (dict_get "action" arguments) = true ->
  let entity_id := dict_get "entity_id" arguments in
  let action := dict_get "action" arguments in
  let completed result :=
    Ret (text_content
           ("Switch " ++ py_str rt entity_id ++ " " ++ py_str rt action ++ " result:" ++ nl
              ++ json_dumps rt result)) in
  dispatch rt "control_switch" arguments =
  if eq_str action "turn_on" then
    result <- call_service "switch" "turn_on" [("entity_id", entity_id)] ;;
    completed result
  else if eq_str action "turn_off" then
    result <- call_service "switch" "turn_off" [("entity_id", entity_id)] ;;
    completed result
  else if eq_str action "toggle" then
    result <- call_service "switch" "toggle" [("entity_id", entity_id)] ;;
    completed result
  else Ret (text_content ("Error: Invalid action '" ++ py_str rt action ++ "'")).
Proof.
  intros He Ha. cbv zeta.
  change (dispatch rt "control_switch" arguments) with (tool_control_switch rt arguments).
  unfold tool_control_switch. rewrite (truthy_both _ _ He Ha). reflexivity.
Qed.

Lemma control_climate_validated (arguments : dict) :
  truthy (dict_get "entity_id" arguments) = true ->
  truthy (dict_get "action" arguments) = true ->
  let entity_id := dict_get "entity_id" arguments in
  let action := dict_get "action" arguments in
  let completed result :=
    Ret (text_content
           ("Climate " ++ py_str rt entity_id ++ " " ++ py_str rt action ++ " result:" ++ nl
              ++ json_dumps rt result)) in
  dispatch rt "control_climate" arguments =
  if eq_str action "set_temperature" then
    match dict_lookup "temperature" arguments with
    | None => Ret (text_content "Error: temperature is required for set_temperature")
    | Some temperature =>
        result <- call_service "climate" "set_temperature"
                    [("entity_id", entity_id); ("temperature", temperature)] ;;
        completed result
    end
  else if eq_str action "set_mode" then
    match dict_lookup "mode" arguments with
    | None => Ret (text_content "Error: mode is required for set_mode")
    | Some mode =>
        result <- call_service "climate" "set_hvac_mode"
                    [("entity_id", entity_id); ("hvac_mode", mode)] ;;
        completed result
    end
  else Ret (text_content ("Error: Invalid action '" ++ py_str rt action ++ "'")).
Proof.
  intros He Ha. cbv zeta.
  change (dispatch rt "control_climate" arguments) with (tool_control_climate rt arguments).
  unfold tool_control_climate. rewrite (truthy_both _ _ He Ha). reflexivity.
Qed.

Lemma truthy_str (s : string) :
  s <> "" -> truthy (JStr s) = true.
Proof.
  intro H. simpl. destruct (String.eqb_spec s ""); [contradiction | reflexivity].
Qed.

End ValidationFacts.

Lemma eq_str_false (v : json) (s : string) :
  v <> JStr s -> eq_str v s = false.
Proof.
  intro H. destruct (eq_str v s) eqn:E; [| reflexivity].
  apply eq_str_true in E. contradiction.
Qed.

(** ** The catalogue *)

Lemma find_tool_none (n : string) (tools : list Tool) :
  ~ In n (map name tools) -> find_tool n tools = None.
Proof.
  induction tools as [| t tools IH]; simpl; intro Hout.
  - reflexivity.
  - destruct (String.eqb_spec (name t) n) as [E | _]; [tauto |].
    apply IH. tauto.
Qed.



(** Evaluates the comparisons of a known action against the literals. *)
Ltac decide_actions H :=
  repeat match type of H with
  | context [eq_str (JStr ?a) ?b] =>
      let r := eval vm_compute in (eq_str (JStr a) b) in
      change (eq_str (JStr a) b) with r in H
  end;
  cbv iota in H.

Lemma gateway_result_fault (o : http_outcome) (msg : string) :
  fault_message o = Some msg -> gateway_result o = error_dict msg.
Proof.
  destruct o; simpl; intro H; inversion H; reflexivity.
Qed.

(** ** Every answer is one text block *)

Lemma single_text_bind (A : Type) (p : prog A) (f : A -> prog (list TextContent)) :
  (forall a, single_text (f a)) -> single_text (bind p f).
Proof.
  intro Hf. induction p as [a | e | r k IH]; simpl.
  - apply Hf.
  - constructor.
  - constructor. exact IH.
Qed.

Lemma single_text_run (be : backend) (p : prog (list TextContent)) :
  single_text p ->
  forall sent blocks,
    fst (run_from be sent p) = Ok blocks -> exists s, blocks = text_content s.
Proof.
  induction 1 as [s | e | r k _ IH]; intros sent blocks Hrun; simpl in Hrun.
  - injection Hrun as <-. eauto.
  - discriminate Hrun.
  - exact (IH _ _ _ Hrun).
Qed.

Create HintDb single_text.
#[local] Hint Resolve single_text_bind : single_text.
#[local] Hint Constructors single_text : single_text.

Lemma single_text_dispatch (rt : runtime) (name : string) (arguments : dict) :
  single_text (dispatch rt name arguments).
Proof.
  unfold dispatch.
  repeat match goal with
  | |- single_text (if ?c then _ else _) => destruct c
  end.
  - unfold tool_get_all_devices. auto 6 with single_text.
  - unfold tool_get_devices_by_type.
    destruct (negb _); auto 6 with single_text.
  - unfold tool_get_device_state.
    destruct (negb _); auto 6 with single_text.
  - unfold tool_control_light.
    repeat match goal with
    | |- single_text (if ?c then _ else _) => destruct c
    end; auto 6 with single_text.
  - unfold tool_control_switch.
    repeat match goal with
    | |- single_text (if ?c then _ else _) => destruct c
    end; auto 6 with single_text.
  - unfold tool_control_climate.
    repeat match goal with
    | |- single_text (if ?c then _ else _) => destruct c
    | |- single_text (match ?d with Some _ => _ | None => _ end) => destruct d
    end; auto 6 with single_text.
  - constructor.
Qed.

(** ** The specification's properties *)

(** C6.  A name that is not one of the six catalogue entries is answered
    with [Error: Unknown tool '<name>'], whatever the arguments and
    whatever the backend, and nothing is sent. *)
Theorem unknown_tool_rejected (rt : runtime) (be : backend)
        (name : string) (arguments : dict) :
  ~ In name tool_names ->
  run be (call_tool rt name arguments) =
  (Ok (text_content ("Error: Unknown tool '" ++ name ++ "'")), []).
Proof.
  intro Hname. apply run_call_tool_pure.
  unfold dispatch.
  repeat match goal with
  | |- context [String.eqb name ?n] =>
      destruct (String.eqb_spec name n) as [-> | _];
        [exfalso; apply Hname; simpl; tauto |]
  end.
  reflexivity.
Qed.

Lemma unknown_tool_rejected_witness :
  ~ In "delete_device" tool_names /\
  run unreachable (call_tool sample_runtime "delete_device" []) =
  (Ok (text_content "Error: Unknown tool 'delete_device'"), []).
Proof.
  assert (H : ~ In "delete_device" tool_names).
  { simpl. intros [H | [H | [H | [H | [H | [H | []]]]]]]; discriminate H. }
  split; [exact H |].
  exact (unknown_tool_rejected sample_runtime unreachable "delete_device" [] H).
Defined.

(** C3.  [control_climate] with a non-empty [entity_id], the action
    [set_mode] and a [mode] sends exactly one request: a POST to
    [services/climate/set_hvac_mode] whose body is [entity_id] followed
    by the value of [mode] under the key [hvac_mode]; the answer prints
    what the gateway returned. *)
Theorem climate_set_mode_invocation (rt : runtime) (be : backend)
        (arguments : dict) (mode : json) :
  truthy (dict_get "entity_id" arguments) = true ->
  dict_get "action" arguments = JStr "set_mode" ->
  dict_lookup "mode" arguments = Some mode ->
  let entity_id := dict_get "entity_id" arguments in
  let invocation :=
    {| req_method := POST;
       req_endpoint := "services/climate/set_hvac_mode";
       req_json := Some [("entity_id", entity_id); ("hvac_mode", mode)] |} in
  run be (call_tool rt "control_climate" arguments) =
  (Ok (text_content
         ("Climate " ++ py_str rt entity_id ++ " set_mode result:" ++ nl
            ++ json_dumps rt (gateway_result (be [] invocation)))),
   [invocation]).
Proof.
  intros He Ha Hm. cbv zeta.
  assert (Hdispatch := control_climate_validated rt arguments He).
  rewrite Ha in Hdispatch. specialize (Hdispatch eq_refl).
  cbv zeta in Hdispatch. simpl eq_str in Hdispatch. rewrite Hm in Hdispatch.
  exact (@run_call_tool_service rt be _ _ _ _ _ _ Hdispatch).
Qed.

Lemma climate_set_mode_invocation_witness :
  run (answering (JList [])) 
      (call_tool sample_runtime "control_climate"
         [("entity_id", JStr "climate.hall"); ("action", JStr "set_mode");
          ("mode", JStr "heat")]) =
  (Ok (text_content ("Climate climate.hall set_mode result:" ++ nl ++ "[]")),
   [ {| req_method := POST;
        req_endpoint := "services/climate/set_hvac_mode";
        req_json := Some [("entity_id", JStr "climate.hall");
                          ("hvac_mode", JStr "heat")] |} ]).
Proof.
  exact (climate_set_mode_invocation sample_runtime (answering (JList []))
           [("entity_id", JStr "climate.hall"); ("action", JStr "set_mode");
            ("mode", JStr "heat")]
           (JStr "heat") eq_refl eq_refl eq_refl).
Defined.

(** C8.  When the backend's answer to the state-list request is not a
    list (an error object, any other JSON value, or a transport fault,
    which the gateway turns into an error object), [get_states] returns
    the empty list and [get_all_devices] answers [Found 0 devices:]
    followed by the printed empty list. *)
Theorem malformed_states_listed_as_none (rt : runtime) (be : backend)
        (arguments : dict) :
  (forall l, be [] states_request <> Response (JList l)) ->
  run be get_states = (Ok [], [states_request]) /\
  run be (call_tool rt "get_all_devices" arguments) =
  (Ok (text_content ("Found 0 devices:" ++ nl ++ json_dumps rt (JList []))),
   [states_request]).
Proof.
  intro Hmalformed.
  assert (Hstates : run be get_states = (Ok [], [states_request])).
  { unfold run. rewrite run_get_states. simpl.
    destruct (be [] states_request) as [v | msg | msg] eqn:E; try reflexivity.
    destruct v; try reflexivity.
    exfalso. exact (Hmalformed l eq_refl). }
  split; [exact Hstates |].
  rewrite run_call_tool.
  change (dispatch rt "get_all_devices" arguments) with (tool_get_all_devices rt).
  unfold tool_get_all_devices, run in *.
  rewrite run_from_bind, Hstates. reflexivity.
Qed.

Lemma malformed_states_listed_as_none_witness :
  (forall l, answering (error_dict "Unauthorized") [] states_request <> Response (JList l)) /\
  run (answering (error_dict "Unauthorized")) get_states = (Ok [], [states_request]) /\
  run (answering (error_dict "Unauthorized")) (call_tool sample_runtime "get_all_devices" []) =
  (Ok (text_content ("Found 0 devices:" ++ nl ++ "[]")), [states_request]).
Proof.
  assert (H : forall l, answering (error_dict "Unauthorized") [] states_request
                        <> Response (JList l)).
  { intros l E. discriminate E. }
  split; [exact H |].
  exact (malformed_states_listed_as_none sample_runtime
           (answering (error_dict "Unauthorized")) [] H).
Defined.

(** C10.  The required string parameters are tested for emptiness, not
    for presence: a call to [get_device_state], [control_light],
    [control_switch] or [control_climate] whose [entity_id] is the empty
    string, or a call to one of the three control tools whose [action]
    is the empty string, gets the answer the same call gets without that
    parameter, which is the tool's "required" text, and nothing is
    sent. *)
Theorem empty_string_counts_as_missing (rt : runtime) (be : backend)
        (name k : string) (arguments : dict) :
  In (name, k)
     [("get_device_state", "entity_id"); ("control_light", "entity_id");
      ("control_switch", "entity_id"); ("control_climate", "entity_id");
      ("control_light", "action"); ("control_switch", "action");
      ("control_climate", "action")] ->
  dict_lookup k arguments = Some (JStr "") ->
  run be (call_tool rt name arguments) = (Ok (text_content (missing_text name)), []) /\
  run be (call_tool rt name (without k arguments)) =
  (Ok (text_content (missing_text name)), []).
Proof.
  intros Hin Hk.
  assert (Hempty : truthy (dict_get k arguments) = false).
  { rewrite (dict_get_present _ _ _ Hk). reflexivity. }
  assert (Habsent : truthy (dict_get k (without k arguments)) = false).
  { rewrite (dict_get_absent _ _ (dict_lookup_without_same k arguments)).
    reflexivity. }
  simpl in Hin.
  repeat (destruct Hin as [Hin | Hin]; [injection Hin as <- <- |]);
    try contradiction;
    split; apply run_call_tool_pure;
    first [ apply get_device_state_requires; assumption
          | apply control_light_requires; auto
          | apply control_switch_requires; auto
          | apply control_climate_requires; auto ].
Qed.

Lemma empty_string_counts_as_missing_witness :
  run unreachable
      (call_tool sample_runtime "control_switch"
         [("entity_id", JStr ""); ("action", JStr "toggle")]) =
  (Ok (text_content "Error: entity_id and action are required"), []) /\
  run unreachable
      (call_tool sample_runtime "control_switch" [("action", JStr "toggle")]) =
  (Ok (text_content "Error: entity_id and action are required"), []).
Proof.
  exact (empty_string_counts_as_missing sample_runtime unreachable
           "control_switch" "entity_id"
           [("entity_id", JStr ""); ("action", JStr "toggle")]
           (or_intror (or_intror (or_introl eq_refl))) eq_refl).
Defined.

(** C7, as the code has it.  A call to [control_light], [control_switch]
    or [control_climate] whose [entity_id] and [action] are both
    non-empty and whose [action] is none of the values the catalogue
    enumerates for the tool is answered with
    [Error: Invalid action '<action>'], and nothing is sent. *)
Theorem invalid_action_rejected (rt : runtime) (be : backend)
        (name : string) (arguments : dict) :
  In name ["control_light"; "control_switch"; "control_climate"] ->
  truthy (dict_get "entity_id" arguments) = true ->
  truthy (dict_get "action" arguments) = true ->
  (forall a, In a (action_enum name) -> dict_get "action" arguments <> JStr a) ->
  run be (call_tool rt name arguments) =
  (Ok (text_content
         ("Error: Invalid action '" ++ py_str rt (dict_get "action" arguments) ++ "'")),
   []).
Proof.
  intros Hname He Ha Henum. apply run_call_tool_pure.
  simpl in Hname.
  destruct Hname as [<- | [<- | [<- | []]]].
  - rewrite (control_light_validated rt arguments He Ha). cbv zeta.
    rewrite !eq_str_false; [reflexivity | ..]; apply Henum; simpl; tauto.
  - rewrite (control_switch_validated rt arguments He Ha). cbv zeta.
    rewrite !eq_str_false; [reflexivity | ..]; apply Henum; simpl; tauto.
  - rewrite (control_climate_validated rt arguments He Ha). cbv zeta.
    rewrite !eq_str_false; [reflexivity | ..]; apply Henum; simpl; tauto.
Qed.

Lemma invalid_action_rejected_witness :
  run unreachable
      (call_tool sample_runtime "control_climate"
         [("entity_id", JStr "climate.hall"); ("action", JStr "turn_on")]) =
  (Ok (text_content "Error: Invalid action 'turn_on'"), []).
Proof.
  refine (invalid_action_rejected sample_runtime unreachable "control_climate"
            [("entity_id", JStr "climate.hall"); ("action", JStr "turn_on")]
            (or_intror (or_intror (or_introl eq_refl))) eq_refl eq_refl _).
  intros a [<- | [<- | []]] E; discriminate E.
Defined.

(** C7 as stated fails on an empty action: the empty string is outside
    the enumerated set, the [entity_id] is non-empty, and the answer is
    the "required" text, not [Error: Invalid action '']. *)
Lemma empty_action_is_not_invalid :
  ~ In "" (action_enum "control_light") /\
  truthy (JStr "light.living_room") = true /\
  run unreachable
      (call_tool sample_runtime "control_light"
         [("entity_id", JStr "light.living_room"); ("action", JStr "")]) =
  (Ok (text_content "Error: entity_id and action are required"), []) /\
  "Error: entity_id and action are required" <> ("Error: Invalid action '" ++ "" ++ "'")%string.
Proof.
  split; [| split; [| split]].
  - simpl. intros [H | [H | [H | []]]]; discriminate H.
  - reflexivity.
  - reflexivity.
  - discriminate.
Qed.




(** C4, as the code has it.  [control_light] and [control_switch] with a
    non-empty [entity_id] and one of the actions [turn_on], [turn_off],
    [toggle] send exactly one request, a POST to
    [services/<domain>/<action>] with the domain [light] or [switch].
    Its body is [entity_id], followed by the [brightness] and the
    [color_temp] the call carries, values unchanged, when the tool is
    [control_light] and the action is [turn_on]; for every other action
    and for [control_switch] the body is [entity_id] alone. *)
Theorem light_switch_invocation (rt : runtime) (be : backend)
        (name domain label : string) (arguments : dict) (action : string) :
  In (name, domain, label)
     [("control_light", "light", "Light"); ("control_switch", "switch", "Switch")] ->
  truthy (dict_get "entity_id" arguments) = true ->
  dict_get "action" arguments = JStr action ->
  In action ["turn_on"; "turn_off"; "toggle"] ->
  let entity_id := dict_get "entity_id" arguments in
  let optional :=
    if String.eqb name "control_light" && String.eqb action "turn_on"
    then provided "brightness" arguments ++ provided "color_temp" arguments
    else [] in
  let invocation :=
    {| req_method := POST;
       req_endpoint := "services/" ++ domain ++ "/" ++ action;
       req_json := Some (("entity_id", entity_id) :: optional) |} in
  run be (call_tool rt name arguments) =
  (Ok (text_content
         (label ++ " " ++ py_str rt entity_id ++ " " ++ action ++ " result:" ++ nl
            ++ json_dumps rt (gateway_result (be [] invocation)))),
   [invocation]).
Proof.
  intros Hname He Ha Haction. cbv zeta.
  assert (Htruthy : truthy (dict_get "action" arguments) = true).
  { rewrite Ha. simpl in Haction.
    destruct Haction as [<- | [<- | [<- | []]]]; reflexivity. }
  simpl in Hname, Haction.
  destruct Hname as [Hname | [Hname | []]]; injection Hname as <- <- <-.
  - assert (Hd := control_light_validated rt arguments He Htruthy).
    cbv zeta in Hd. rewrite Ha in Hd.
    destruct Haction as [<- | [<- | [<- | []]]]; decide_actions Hd;
      exact (run_call_tool_service rt be _ _ _ _ _ _ Hd).
  - assert (Hd := control_switch_validated rt arguments He Htruthy).
    cbv zeta in Hd. rewrite Ha in Hd.
    destruct Haction as [<- | [<- | [<- | []]]]; decide_actions Hd;
      exact (run_call_tool_service rt be _ _ _ _ _ _ Hd).
Qed.

Lemma light_switch_invocation_witness :
  run (answering (JList []))
      (call_tool sample_runtime "control_light"
         [("entity_id", JStr "light.living_room"); ("action", JStr "turn_on");
          ("brightness", JInt 120)]) =
  (Ok (text_content ("Light light.living_room turn_on result:" ++ nl ++ "[]")),
   [ {| req_method := POST;
        req_endpoint := "services/light/turn_on";
        req_json := Some [("entity_id", JStr "light.living_room");
                          ("brightness", JInt 120)] |} ]).
Proof.
  exact (light_switch_invocation sample_runtime (answering (JList []))
           "control_light" "light" "Light"
           [("entity_id", JStr "light.living_room"); ("action", JStr "turn_on");
            ("brightness", JInt 120)]
           "turn_on" (or_introl eq_refl) eq_refl eq_refl (or_introl eq_refl)).
Defined.

(** C4 as stated fails for an action other than [turn_on]: the call
    carries [brightness], and the body sent to [light.turn_off] is
    [entity_id] alone. *)
Lemma brightness_dropped_on_turn_off :
  dict_lookup "brightness"
    [("entity_id", JStr "light.living_room"); ("action", JStr "turn_off");
     ("brightness", JInt 120)] = Some (JInt 120) /\
  snd (run (answering (JList []))
         (call_tool sample_runtime "control_light"
            [("entity_id", JStr "light.living_room"); ("action", JStr "turn_off");
             ("brightness", JInt 120)])) =
  [ {| req_method := POST;
       req_endpoint := "services/light/turn_off";
       req_json := Some [("entity_id", JStr "light.living_room")] |} ].
Proof.
  split; reflexivity.
Qed.

(** C9, as the code has it.  The catalogue advertises [brightness] with
    the bounds 0 and 255 and [color_temp] with the bounds 150 and 500,
    and the dispatcher does not test them: [control_light] with a
    non-empty [entity_id] and the action [turn_on] sends the
    [brightness] and the [color_temp] of the call to [light.turn_on]
    whatever their values. *)
Theorem light_ranges_advertised_not_enforced (rt : runtime) (be : backend)
        (arguments : dict) :
  truthy (dict_get "entity_id" arguments) = true ->
  dict_get "action" arguments = JStr "turn_on" ->
  (exists t b c,
      find_tool "control_light" list_tools = Some t /\
      find_property "brightness" (properties (inputSchema t)) = Some b /\
      (p_minimum b, p_maximum b) = (Some 0%Z, Some 255%Z) /\
      find_property "color_temp" (properties (inputSchema t)) = Some c /\
      (p_minimum c, p_maximum c) = (Some 150%Z, Some 500%Z)) /\
  snd (run be (call_tool rt "control_light" arguments)) =
  [ {| req_method := POST;
       req_endpoint := "services/light/turn_on";
       req_json :=
         Some (("entity_id", dict_get "entity_id" arguments)
                 :: provided "brightness" arguments
                 ++ provided "color_temp" arguments) |} ].
Proof.
  intros He Ha. split.
  - eexists _, _, _. repeat split; reflexivity.
  - assert (Htruthy : truthy (dict_get "action" arguments) = true).
    { rewrite Ha. reflexivity. }
    assert (Hd := control_light_validated rt arguments He Htruthy).
    cbv zeta in Hd. rewrite Ha in Hd. decide_actions Hd.
    rewrite (run_call_tool_service rt be _ _ _ _ _ _ Hd). reflexivity.
Qed.

Lemma light_ranges_advertised_not_enforced_witness :
  snd (run (answering (JList []))
         (call_tool sample_runtime "control_light"
            [("entity_id", JStr "light.living_room"); ("action", JStr "turn_on");
             ("brightness", JInt (-5)); ("color_temp", JInt 1000)])) =
  [ {| req_method := POST;
       req_endpoint := "services/light/turn_on";
       req_json := Some [("entity_id", JStr "light.living_room");
                         ("brightness", JInt (-5)); ("color_temp", JInt 1000)] |} ].
Proof.
  exact (proj2 (light_ranges_advertised_not_enforced sample_runtime (answering (JList []))
                  [("entity_id", JStr "light.living_room"); ("action", JStr "turn_on");
                   ("brightness", JInt (-5)); ("color_temp", JInt 1000)]
                  eq_refl eq_refl)).
Defined.

(** C9 as stated fails: a [brightness] of 300 is outside 0..255, and the
    call is answered with the service result after 300 has been sent to
    [light.turn_on]. *)
Lemma brightness_out_of_range_forwarded :
  (255 < 300)%Z /\
  run (answering (JList []))
      (call_tool sample_runtime "control_light"
         [("entity_id", JStr "light.living_room"); ("action", JStr "turn_on");
          ("brightness", JInt 300)]) =
  (Ok (text_content ("Light light.living_room turn_on result:" ++ nl ++ "[]")),
   [ {| req_method := POST;
        req_endpoint := "services/light/turn_on";
        req_json := Some [("entity_id", JStr "light.living_room");
                          ("brightness", JInt 300)] |} ]).
Proof.
  split; reflexivity.
Qed.

(** C2, as the code has it.  When every state the backend sent is an
    object whose [entity_id] is a string or is absent, then for every
    type [t] the method [get_devices_by_type] returns the states whose
    [entity_id] starts with [t.], in their order, and their entries are
    the entries of [get_all_devices] whose [entity_id] starts with [t.];
    for a non-empty [t] the tool prints those entries, in their order,
    under their count. *)
Theorem devices_by_type_prefix_law (rt : runtime) (be : backend)
        (t : string) (states : list json) (arguments by_type : dict) :
  be [] states_request = Response (JList states) ->
  Forall device_state states ->
  dict_get "device_type" by_type = JStr t ->
  let all := map entry_of states in
  let selected := filter (entity_id_startswith (t ++ ".")) all in
  run be (call_tool rt "get_all_devices" arguments) =
  (Ok (text_content
         ("Found " ++ str_nat (length all) ++ " devices:" ++ nl
            ++ json_dumps rt (JList all))),
   [states_request]) /\
  run be (get_devices_by_type rt (JStr t)) =
  (Ok (filter (state_startswith (t ++ ".")) states), [states_request]) /\
  map entry_of (filter (state_startswith (t ++ ".")) states) = selected /\
  (t <> "" ->
   run be (call_tool rt "get_devices_by_type" by_type) =
   (Ok (text_content
          ("Found " ++ str_nat (length selected) ++ " " ++ t ++ " devices:" ++ nl
             ++ json_dumps rt (JList selected))),
    [states_request])).
Proof.
  intros Hbe Hstates Htype. cbv zeta.
  assert (Hdot : (t ++ ".")%string <> "") by (apply append_nonempty; discriminate).
  assert (Hget : run be get_states = (Ok states, [states_request])).
  { unfold run. rewrite run_get_states, Hbe. reflexivity. }
  assert (Hby : run be (get_devices_by_type rt (JStr t)) =
                (Ok (filter (state_startswith (t ++ ".")) states), [states_request])).
  { unfold get_devices_by_type, run in *. rewrite run_from_bind, Hget.
    simpl py_str. rewrite (filter_m_startswith _ states Hstates). reflexivity. }
  split; [| split; [exact Hby | split; [apply filter_entries; assumption |]]].
  - rewrite run_call_tool.
    change (dispatch rt "get_all_devices" arguments) with (tool_get_all_devices rt).
    unfold tool_get_all_devices, run in *.
    rewrite run_from_bind, Hget, (for_each_device_entry states Hstates). reflexivity.
  - intro Ht. rewrite run_call_tool.
    change (dispatch rt "get_devices_by_type" by_type)
      with (tool_get_devices_by_type rt by_type).
    unfold tool_get_devices_by_type. rewrite Htype, (truthy_str t Ht).
    cbv zeta. simpl negb. cbv iota. unfold run in *.
    rewrite run_from_bind, Hby.
    rewrite (for_each_device_entry _ (filter_device_state _ states Hstates)).
    rewrite (filter_entries (t ++ ".") states Hdot Hstates). reflexivity.
Qed.

Lemma devices_by_type_prefix_law_witness :
  run (answering (JList [living_room; kitchen; hall]))
      (get_devices_by_type sample_runtime (JStr "light")) =
  (Ok [living_room], [states_request]) /\
  run (answering (JList [living_room; kitchen; hall]))
      (call_tool sample_runtime "get_devices_by_type" [("device_type", JStr "light")]) =
  (Ok (text_content
         ("Found 1 light devices:" ++ nl
            ++ sample_dumps "" (JList [entry_of living_room]))),
   [states_request]).
Proof.
  assert (Hstates : Forall device_state [living_room; kitchen; hall]).
  { repeat apply Forall_cons; try apply Forall_nil;
      eexists _, _; split; reflexivity. }
  assert (Ht : "light" <> "") by discriminate.
  pose proof (devices_by_type_prefix_law sample_runtime
                (answering (JList [living_room; kitchen; hall]))
                "light" [living_room; kitchen; hall] []
                [("device_type", JStr "light")] eq_refl Hstates eq_refl) as H.
  cbv zeta in H.
  exact (conj (proj1 (proj2 H)) (proj2 (proj2 (proj2 H)) Ht)).
Defined.

(** C2 as stated fails on two kinds of input.  A state whose
    [entity_id] is null is listed by [get_all_devices], next to a
    switch; asked for the switches, the filter raises on the first state
    and the tool answers with the message of the fault instead of the
    one entry that starts with [switch.].  And the empty type is
    rejected as missing, where the law asks for the entries that start
    with a dot. *)
Lemma type_filter_law_fails :
  run (answering (JList [JObj [("entity_id", JNull)]; kitchen]))
      (call_tool sample_runtime "get_all_devices" []) =
  (Ok (text_content
         ("Found 2 devices:" ++ nl
            ++ sample_dumps ""
                 (JList [entry_of (JObj [("entity_id", JNull)]); entry_of kitchen]))),
   [states_request]) /\
  filter (entity_id_startswith "switch.")
         [entry_of (JObj [("entity_id", JNull)]); entry_of kitchen] =
  [entry_of kitchen] /\
  run (answering (JList [JObj [("entity_id", JNull)]; kitchen]))
      (get_devices_by_type sample_runtime (JStr "switch")) =
  (Exn (AttributeError "NoneType" "startswith"), [states_request]) /\
  run (answering (JList [JObj [("entity_id", JNull)]; kitchen]))
      (call_tool sample_runtime "get_devices_by_type" [("device_type", JStr "switch")]) =
  (Ok (text_content "Error: 'NoneType' object has no attribute 'startswith'"),
   [states_request]) /\
  run (answering (JList [living_room]))
      (call_tool sample_runtime "get_devices_by_type" [("device_type", JStr "")]) =
  (Ok (text_content "Error: device_type is required"), []).
Proof.
  repeat split; reflexivity.
Qed.

(** C1, as the code has it.  Every call, whatever the name, the
    arguments and the backend, ends in one text block and no exception
    leaves [call_tool]: a fault of the handler's body is answered with
    [Error: <message>]; [call_ha_api] never raises and turns a transport
    fault into the object [{error: <message>}]; [get_device_state]
    prints that object under its usual heading; on the state-list paths
    ([get_all_devices], [get_devices_by_type]) the object is replaced by
    the empty list and the answer is the ordinary [Found 0 ... devices:]
    text. *)
Theorem call_tool_always_answers (rt : runtime) (be : backend)
        (name : string) (arguments : dict) :
  (exists s, fst (run be (call_tool rt name arguments)) = Ok (text_content s)) /\
  (forall e,
      fst (run be (dispatch rt name arguments)) = Exn e ->
      fst (run be (call_tool rt name arguments)) =
      Ok (text_content ("Error: " ++ exn_str e))) /\
  (forall sent endpoint method data,
      exists v, fst (run_from be sent (call_ha_api endpoint method data)) = Ok v) /\
  (forall sent endpoint data msg,
      fault_message
        (be sent {| req_method := GET; req_endpoint := endpoint; req_json := None |})
      = Some msg ->
      fst (run_from be sent (call_ha_api endpoint "GET" data)) = Ok (error_dict msg)) /\
  (forall sent endpoint data msg,
      fault_message
        (be sent {| req_method := POST; req_endpoint := endpoint; req_json := data |})
      = Some msg ->
      fst (run_from be sent (call_ha_api endpoint "POST" data)) = Ok (error_dict msg)) /\
  (forall msg,
      truthy (dict_get "entity_id" arguments) = true ->
      fault_message
        (be [] {| req_method := GET;
                  req_endpoint := "states/" ++ py_str rt (dict_get "entity_id" arguments);
                  req_json := None |})
      = Some msg ->
      fst (run be (call_tool rt "get_device_state" arguments)) =
      Ok (text_content
            ("Device " ++ py_str rt (dict_get "entity_id" arguments) ++ " state:" ++ nl
               ++ json_dumps rt (error_dict msg)))) /\
  (forall msg,
      fault_message (be [] states_request) = Some msg ->
      fst (run be (call_tool rt "get_all_devices" arguments)) =
      Ok (text_content ("Found 0 devices:" ++ nl ++ json_dumps rt (JList []))) /\
      (truthy (dict_get "device_type" arguments) = true ->
       fst (run be (call_tool rt "get_devices_by_type" arguments)) =
       Ok (text_content
             ("Found 0 " ++ py_str rt (dict_get "device_type" arguments) ++ " devices:"
                ++ nl ++ json_dumps rt (JList []))))).
Proof.
  split; [| split; [| split; [| split; [| split; [| split]]]]].
  - rewrite run_call_tool.
    destruct (run be (dispatch rt name arguments)) as [[blocks | e] sent] eqn:E.
    + destruct (single_text_run be (dispatch rt name arguments)
                  (single_text_dispatch rt name arguments) [] blocks) as [s ->].
      * unfold run in E. rewrite E. reflexivity.
      * simpl. eauto.
    + simpl. eauto.
  - intros e He. rewrite run_call_tool.
    destruct (run be (dispatch rt name arguments)) as [[blocks | e'] sent];
      simpl in *; congruence.
  - intros. apply call_ha_api_never_raises.
  - intros sent endpoint data msg Hmsg.
    rewrite run_call_ha_api_get. simpl. f_equal. apply gateway_result_fault, Hmsg.
  - intros sent endpoint data msg Hmsg.
    rewrite run_call_ha_api_post. simpl. f_equal. apply gateway_result_fault, Hmsg.
  - intros msg He Hmsg. rewrite run_call_tool.
    change (dispatch rt "get_device_state" arguments)
      with (tool_get_device_state rt arguments).
    unfold tool_get_device_state, run. rewrite He. simpl negb. cbv iota zeta.
    rewrite run_from_bind, run_get_state. cbv zeta.
    rewrite (gateway_result_fault _ _ Hmsg). reflexivity.
  - intros msg Hmsg.
    assert (Hget : run be get_states = (Ok [], [states_request])).
    { unfold run. rewrite run_get_states, (gateway_result_fault _ _ Hmsg). reflexivity. }
    split.
    + rewrite run_call_tool.
      change (dispatch rt "get_all_devices" arguments) with (tool_get_all_devices rt).
      unfold tool_get_all_devices, run in *. rewrite run_from_bind, Hget. reflexivity.
    + intro Ht. rewrite run_call_tool.
      change (dispatch rt "get_devices_by_type" arguments)
        with (tool_get_devices_by_type rt arguments).
      unfold tool_get_devices_by_type, get_devices_by_type, run in *.
      rewrite Ht. simpl negb. cbv iota zeta.
      rewrite !run_from_bind, Hget. reflexivity.
Qed.

Lemma call_tool_always_answers_witness :
  fst (run (answering (JList [living_room; JInt 3]))
         (dispatch sample_runtime "get_all_devices" [])) =
  Exn (AttributeError "int" "get") /\
  fst (run (answering (JList [living_room; JInt 3]))
         (call_tool sample_runtime "get_all_devices" [])) =
  Ok (text_content "Error: 'int' object has no attribute 'get'") /\
  fst (run unreachable
         (call_tool sample_runtime "get_device_state"
            [("entity_id", JStr "switch.kitchen")])) =
  Ok (text_content
        ("Device switch.kitchen state:" ++ nl
           ++ sample_dumps ""
                (error_dict
                   "HTTP client error: Cannot connect to host 192.168.200.111:8123"))).
Proof.
  split; [reflexivity | split].
  - exact (proj1 (proj2 (call_tool_always_answers sample_runtime
                           (answering (JList [living_room; JInt 3]))
                           "get_all_devices" []))
             (AttributeError "int" "get") eq_refl).
  - exact (proj1 (proj2 (proj2 (proj2 (proj2 (proj2
             (call_tool_always_answers sample_runtime unreachable
                "get_device_state" [("entity_id", JStr "switch.kitchen")]))))))
             "HTTP client error: Cannot connect to host 192.168.200.111:8123"
             eq_refl eq_refl).
Defined.

(** C1 as stated fails on the state-list path: with the backend out of
    reach, [get_all_devices] answers what it answers for a backend with
    no device at all, and the text carries no trace of the fault. *)
Lemma connection_failure_listed_as_no_devices :
  fault_message (unreachable [] states_request) =
  Some "HTTP client error: Cannot connect to host 192.168.200.111:8123" /\
  run unreachable (call_tool sample_runtime "get_all_devices" []) =
  (Ok (text_content ("Found 0 devices:" ++ nl ++ "[]")), [states_request]) /\
  run unreachable (call_tool sample_runtime "get_all_devices" []) =
  run (answering (JList [])) (call_tool sample_runtime "get_all_devices" []) /\
  contains ("Found 0 devices:" ++ nl ++ "[]") "rror" = false.
Proof.
  repeat split; reflexivity.
Qed.

(** ** Further properties of the gateway and the dispatcher *)

(** *** Traffic *)

Section Traffic.

Variable be : backend.

Lemma silent_bind (A B : Type) (p : prog A) (f : A -> prog B) :
  silent p -> (forall a, silent (f a)) -> silent (bind p f).
Proof.
  intros [a | e] Hf; simpl; [apply Hf | constructor].
Qed.

Lemma asks_bind (A B : Type) (r : request) (p : prog A) (f : A -> prog B) :
  asks r p -> (forall a, silent (f a)) -> asks r (bind p f).
Proof.
  intros [k Hk] Hf. simpl. constructor.
  intro o. apply silent_bind; auto.
Qed.

Lemma silent_try_except (A : Type) (p : prog A) (h : exn -> prog A) :
  silent p -> (forall e, silent (h e)) -> silent (try_except p h).
Proof.
  intros [a | e] Hh; simpl; [constructor | apply Hh].
Qed.

Lemma asks_try_except (A : Type) (r : request) (p : prog A) (h : exn -> prog A) :
  asks r p -> (forall e, silent (h e)) -> asks r (try_except p h).
Proof.
  intros [k Hk] Hh. simpl. constructor.
  intro o. apply silent_try_except; auto.
Qed.

Lemma run_silent (A : Type) (p : prog A) (sent : list request) :
  silent p -> snd (run_from be sent p) = sent.
Proof.
  intros [a | e]; reflexivity.
Qed.

Lemma run_asks (A : Type) (r : request) (p : prog A) (sent : list request) :
  asks r p -> snd (run_from be sent p) = sent ++ [r].
Proof.
  intros [k Hk]. simpl. apply run_silent, Hk.
Qed.

End Traffic.

Lemma asks_call_ha_api_get (endpoint : string) (data : option dict) :
  asks {| req_method := GET; req_endpoint := endpoint; req_json := None |}
       (call_ha_api endpoint "GET" data).
Proof.
  unfold call_ha_api. cbn. constructor.
  intros [v | msg | msg]; constructor.
Qed.

Lemma asks_call_service (domain service : string) (data : dict) :
  asks (service_request domain service data) (call_service domain service data).
Proof.
  unfold call_service, call_ha_api. cbn. constructor.
  intros [v | msg | msg]; constructor.
Qed.

Lemma asks_get_states : asks states_request get_states.
Proof.
  unfold get_states. apply asks_bind.
  - apply asks_call_ha_api_get.
  - intros [ | | | | | |]; constructor.
Qed.

Lemma silent_py_get (v : json) (k : string) (default : json) :
  silent (py_get v k default).
Proof.
  destruct v; constructor.
Qed.

Lemma silent_device_entry (state : json) : silent (device_entry state).
Proof.
  unfold device_entry.
  repeat (apply silent_bind; [apply silent_py_get | intro]).
  constructor.
Qed.

Lemma silent_for_each (A B : Type) (f : A -> prog B) (xs : list A) :
  (forall x, silent (f x)) -> silent (for_each f xs).
Proof.
  intro Hf. induction xs as [| x xs IH]; simpl.
  - constructor.
  - apply silent_bind; [apply Hf | intro y].
    apply silent_bind; [exact IH | intro ys]. constructor.
Qed.

Lemma silent_filter_m (A : Type) (f : A -> prog bool) (xs : list A) :
  (forall x, silent (f x)) -> silent (filter_m f xs).
Proof.
  intro Hf. induction xs as [| x xs IH]; simpl.
  - constructor.
  - apply silent_bind; [apply Hf | intro b].
    apply silent_bind; [exact IH | intro ys]. constructor.
Qed.

(** What [accepted] comes to for each entry of the catalogue. *)
Lemma accepted_get_all_devices (arguments : dict) :
  accepted "get_all_devices" arguments = true.
Proof. reflexivity. Qed.

Lemma accepted_get_devices_by_type (arguments : dict) :
  accepted "get_devices_by_type" arguments = truthy (dict_get "device_type" arguments).
Proof.
  unfold accepted, required_given, action_listed, action_params_given. cbn.
  destruct (truthy _); reflexivity.
Qed.

Lemma accepted_get_device_state (arguments : dict) :
  accepted "get_device_state" arguments = truthy (dict_get "entity_id" arguments).
Proof.
  unfold accepted, required_given, action_listed, action_params_given. cbn.
  destruct (truthy _); reflexivity.
Qed.

Lemma accepted_control_light (arguments : dict) :
  accepted "control_light" arguments =
  truthy (dict_get "entity_id" arguments) && truthy (dict_get "action" arguments)
  && (eq_str (dict_get "action" arguments) "turn_on"
      || eq_str (dict_get "action" arguments) "turn_off"
      || eq_str (dict_get "action" arguments) "toggle").
Proof.
  unfold accepted, required_given, action_listed, action_params_given. cbn.
  destruct (truthy (dict_get "entity_id" arguments));
    destruct (truthy (dict_get "action" arguments));
    destruct (eq_str (dict_get "action" arguments) "turn_on");
    destruct (eq_str (dict_get "action" arguments) "turn_off");
    destruct (eq_str (dict_get "action" arguments) "toggle"); reflexivity.
Qed.

Lemma accepted_control_switch (arguments : dict) :
  accepted "control_switch" arguments =
  truthy (dict_get "entity_id" arguments) && truthy (dict_get "action" arguments)
  && (eq_str (dict_get "action" arguments) "turn_on"
      || eq_str (dict_get "action" arguments) "turn_off"
      || eq_str (dict_get "action" arguments) "toggle").
Proof.
  unfold accepted, required_given, action_listed, action_params_given. cbn.
  destruct (truthy (dict_get "entity_id" arguments));
    destruct (truthy (dict_get "action" arguments));
    destruct (eq_str (dict_get "action" arguments) "turn_on");
    destruct (eq_str (dict_get "action" arguments) "turn_off");
    destruct (eq_str (dict_get "action" arguments) "toggle"); reflexivity.
Qed.

Lemma accepted_control_climate (arguments : dict) :
  accepted "control_climate" arguments =
  truthy (dict_get "entity_id" arguments) && truthy (dict_get "action" arguments)
  && (if eq_str (dict_get "action" arguments) "set_temperature"
      then dict_mem "temperature" arguments
      else if eq_str (dict_get "action" arguments) "set_mode"
           then dict_mem "mode" arguments
           else false).
Proof.
  unfold accepted, required_given, action_listed, action_params_given, action_required.
  cbn.
  destruct (truthy (dict_get "entity_id" arguments));
    destruct (truthy (dict_get "action" arguments));
    destruct (eq_str (dict_get "action" arguments) "set_temperature");
    destruct (eq_str (dict_get "action" arguments) "set_mode"); cbn;
    try reflexivity;
    try (destruct (dict_mem "temperature" arguments); reflexivity);
    try (destruct (dict_mem "mode" arguments); reflexivity).
Qed.

Lemma accepted_unknown (name : string) (arguments : dict) :
  ~ In name tool_names -> accepted name arguments = false.
Proof.
  intro Hout. unfold accepted, action_listed.
  rewrite (find_tool_none name list_tools Hout).
  rewrite andb_false_r. reflexivity.
Qed.

Lemma dispatch_unknown (rt : runtime) (name : string) (arguments : dict) :
  ~ In name tool_names ->
  dispatch rt name arguments = Ret (text_content ("Error: Unknown tool '" ++ name ++ "'")).
Proof.
  intro Hout. unfold dispatch.
  repeat match goal with
  | |- context [String.eqb name ?n] =>
      destruct (String.eqb_spec name n) as [-> | _];
        [exfalso; apply Hout; simpl; tauto |]
  end.
  reflexivity.
Qed.

Lemma dict_mem_present (k : string) (d : dict) (v : json) :
  dict_lookup k d = Some v -> dict_mem k d = true.
Proof.
  intro H. destruct (dict_mem k d) eqn:E; [reflexivity |].
  apply dict_mem_lookup in E. congruence.
Qed.

Lemma provided_in (k k' : string) (v : json) (arguments : dict) :
  In (k', v) (provided k arguments) -> k' = k /\ dict_lookup k arguments = Some v.
Proof.
  unfold provided. destruct (dict_lookup k arguments) as [w |]; simpl.
  - intros [H | []]. inversion H. auto.
  - intros [].
Qed.

Lemma payload_entity_id (arguments : dict) :
  payload_from arguments [("entity_id", dict_get "entity_id" arguments)].
Proof.
  split; [reflexivity |].
  intros k v [H | []]. inversion H. subst. split; [simpl; tauto | reflexivity].
Qed.

Lemma payload_light_turn_on (arguments : dict) :
  payload_from arguments
    ([("entity_id", dict_get "entity_id" arguments)]
       ++ provided "brightness" arguments ++ provided "color_temp" arguments).
Proof.
  split; [reflexivity |].
  intros k v [H | H].
  - inversion H. subst. split; [simpl; tauto | reflexivity].
  - simpl in H. apply in_app_or in H. destruct H as [H | H];
      apply provided_in in H; destruct H as [-> H];
      (split; [simpl; tauto | apply dict_get_present, H]).
Qed.

Lemma payload_field (arguments : dict) (k : string) (v : json) :
  In k ["temperature"; "hvac_mode"] ->
  dict_lookup (source_key k) arguments = Some v ->
  payload_from arguments [("entity_id", dict_get "entity_id" arguments); (k, v)].
Proof.
  intros Hk Hv. split; [reflexivity |].
  intros k' v' [H | [H | []]]; inversion H; subst.
  - split; [simpl; tauto | reflexivity].
  - split; [| apply dict_get_present, Hv].
    simpl in Hk. destruct Hk as [<- | [<- | []]]; simpl; tauto.
Qed.

(** A service branch: one invocation, then the text. *)
Lemma asks_service_branch (domain service : string) (data : dict)
      (render : json -> string) :
  asks (service_request domain service data)
       (result <- call_service domain service data ;;
        Ret (text_content (render result))).
Proof.
  apply asks_bind; [apply asks_call_service | intro; constructor].
Qed.

Ltac service_case domain :=
  eexists; split; [apply asks_service_branch |];
  right; right; exists domain; eexists _, _;
  refine (conj _ (conj _ (conj eq_refl _)));
  [simpl; tauto | simpl; tauto
  | first [apply payload_light_turn_on | apply payload_entity_id]].

(** The traffic of every call: an accepted call sends one permitted
    request, any other call sends nothing. *)
Lemma dispatch_plan (rt : runtime) (name : string) (arguments : dict) :
  if accepted name arguments
  then exists r, asks r (dispatch rt name arguments) /\ permitted rt name arguments r
  else silent (dispatch rt name arguments).
Proof.
  destruct (in_dec string_dec name tool_names) as [Hin | Hout].
  2: { rewrite (accepted_unknown name arguments Hout),
               (dispatch_unknown rt name arguments Hout). constructor. }
  simpl in Hin.
  destruct Hin as [<- | [<- | [<- | [<- | [<- | [<- | []]]]]]].
  - rewrite accepted_get_all_devices. exists states_request. split.
    + change (dispatch rt "get_all_devices" arguments) with (tool_get_all_devices rt).
      unfold tool_get_all_devices. apply asks_bind; [apply asks_get_states | intro].
      apply silent_bind; [apply silent_for_each, silent_device_entry | intro].
      constructor.
    + left. simpl. tauto.
  - rewrite accepted_get_devices_by_type.
    destruct (truthy (dict_get "device_type" arguments)) eqn:Ht.
    + exists states_request. split; [| left; simpl; tauto].
      change (dispatch rt "get_devices_by_type" arguments)
        with (tool_get_devices_by_type rt arguments).
      unfold tool_get_devices_by_type, get_devices_by_type. rewrite Ht. simpl negb.
      cbv iota zeta.
      apply asks_bind.
      * apply asks_bind; [apply asks_get_states | intro].
        apply silent_filter_m. intro state.
        apply silent_bind; [apply silent_py_get | intros []; constructor].
      * intro. apply silent_bind;
          [apply silent_for_each, silent_device_entry | intro; constructor].
    + rewrite (get_devices_by_type_requires rt arguments Ht). constructor.
  - rewrite accepted_get_device_state.
    destruct (truthy (dict_get "entity_id" arguments)) eqn:He.
    + eexists. split; [| right; left; split; reflexivity].
      change (dispatch rt "get_device_state" arguments)
        with (tool_get_device_state rt arguments).
      unfold tool_get_device_state, get_state. rewrite He. simpl negb. cbv iota zeta.
      apply asks_bind; [apply asks_call_ha_api_get | intro; constructor].
    + rewrite (get_device_state_requires rt arguments He). constructor.
  - rewrite accepted_control_light.
    destruct (truthy (dict_get "entity_id" arguments)) eqn:He;
      [| rewrite (control_light_requires rt arguments (or_introl He)); constructor].
    destruct (truthy (dict_get "action" arguments)) eqn:Ha;
      [| rewrite (control_light_requires rt arguments (or_intror Ha)); constructor].
    rewrite (control_light_validated rt arguments He Ha). cbv zeta.
    destruct (eq_str (dict_get "action" arguments) "turn_on");
      [cbn [andb orb]; service_case "light" |].
    destruct (eq_str (dict_get "action" arguments) "turn_off");
      [cbn [andb orb]; service_case "light" |].
    destruct (eq_str (dict_get "action" arguments) "toggle");
      [cbn [andb orb]; service_case "light" | cbn [andb orb]; constructor].
  - rewrite accepted_control_switch.
    destruct (truthy (dict_get "entity_id" arguments)) eqn:He;
      [| rewrite (control_switch_requires rt arguments (or_introl He)); constructor].
    destruct (truthy (dict_get "action" arguments)) eqn:Ha;
      [| rewrite (control_switch_requires rt arguments (or_intror Ha)); constructor].
    rewrite (control_switch_validated rt arguments He Ha). cbv zeta.
    destruct (eq_str (dict_get "action" arguments) "turn_on");
      [cbn [andb orb]; service_case "switch" |].
    destruct (eq_str (dict_get "action" arguments) "turn_off");
      [cbn [andb orb]; service_case "switch" |].
    destruct (eq_str (dict_get "action" arguments) "toggle");
      [cbn [andb orb]; service_case "switch" | cbn [andb orb]; constructor].
  - rewrite accepted_control_climate.
    destruct (truthy (dict_get "entity_id" arguments)) eqn:He;
      [| rewrite (control_climate_requires rt arguments (or_introl He)); constructor].
    destruct (truthy (dict_get "action" arguments)) eqn:Ha;
      [| rewrite (control_climate_requires rt arguments (or_intror Ha)); constructor].
    rewrite (control_climate_validated rt arguments He Ha). cbv zeta.
    destruct (eq_str (dict_get "action" arguments) "set_temperature").
    + destruct (dict_lookup "temperature" arguments) as [v |] eqn:Hv.
      * rewrite (dict_mem_present "temperature" arguments v Hv).
        cbn [andb orb]. eexists. split; [apply asks_service_branch |].
        right; right; eexists "climate", _, _.
        refine (conj _ (conj _ (conj eq_refl _))); [simpl; tauto | simpl; tauto |].
        apply payload_field; [simpl; tauto | exact Hv].
      * rewrite (proj2 (dict_mem_lookup "temperature" arguments) Hv). constructor.
    + destruct (eq_str (dict_get "action" arguments) "set_mode"); [| constructor].
      destruct (dict_lookup "mode" arguments) as [v |] eqn:Hv.
      * rewrite (dict_mem_present "mode" arguments v Hv).
        cbn [andb orb]. eexists. split; [apply asks_service_branch |].
        right; right; eexists "climate", _, _.
        refine (conj _ (conj _ (conj eq_refl _))); [simpl; tauto | simpl; tauto |].
        apply payload_field; [simpl; tauto | exact Hv].
      * rewrite (proj2 (dict_mem_lookup "mode" arguments) Hv). constructor.
Qed.

Lemma call_tool_traffic (rt : runtime) (be : backend) (name : string) (arguments : dict) :
  if accepted name arguments
  then exists r, snd (run be (call_tool rt name arguments)) = [r]
                 /\ permitted rt name arguments r
  else snd (run be (call_tool rt name arguments)) = [].
Proof.
  pose proof (dispatch_plan rt name arguments) as Hplan.
  unfold run, call_tool.
  destruct (accepted name arguments).
  - destruct Hplan as [r [Hasks Hperm]]. exists r. split; [| exact Hperm].
    change [r] with ([] ++ [r]).
    apply (run_asks be), asks_try_except; [exact Hasks | intro; constructor].
  - apply (run_silent be), silent_try_except; [exact Hplan | intro; constructor].
Qed.

(** X1.  A call sends exactly one request when the catalogue accepts it
    (tool known, required parameters non-empty, action enumerated, the
    parameter of the action present) and none otherwise; what the
    backend answers does not change that. *)
Theorem one_request_iff_accepted (rt : runtime) (be : backend)
        (name : string) (arguments : dict) :
  length (snd (run be (call_tool rt name arguments))) =
  if accepted name arguments then 1 else 0.
Proof.
  pose proof (call_tool_traffic rt be name arguments) as H.
  destruct (accepted name arguments).
  - destruct H as [r [-> _]]. reflexivity.
  - rewrite H. reflexivity.
Qed.

(** X2.  The reading tools only read and the control tools only invoke
    their own services: a request of a call is a body-less GET unless
    the tool is one of the three control tools, and then it is a POST
    to [services/<domain>/<service>] with the domain of the tool and one
    of the services the dispatcher names for it. *)
Theorem requests_match_tool (rt : runtime) (be : backend)
        (name : string) (arguments : dict) (r : request) :
  In r (snd (run be (call_tool rt name arguments))) ->
  (~ In name (map fst domain_of_tool) /\ req_method r = GET /\ req_json r = None) \/
  (exists domain service,
      In (name, domain) domain_of_tool /\ In service (services_of domain) /\
      req_method r = POST /\
      req_endpoint r = ("services/" ++ domain ++ "/" ++ service)%string).
Proof.
  intro Hr. pose proof (call_tool_traffic rt be name arguments) as H.
  destruct (accepted name arguments); [| rewrite H in Hr; destruct Hr].
  destruct H as [r' [Htrace Hperm]]. rewrite Htrace in Hr.
  destruct Hr as [<- | []].
  destruct Hperm as [[Hname ->] | [[-> ->] | [domain [service [data [Hd [Hs [-> _]]]]]]]].
  - left. split; [| split; reflexivity].
    simpl in *. intros [E | [E | [E | []]]];
      destruct Hname as [<- | [<- | []]]; discriminate E.
  - left. split; [| split; reflexivity].
    simpl. intros [E | [E | [E | []]]]; discriminate E.
  - right. exists domain, service. repeat split; assumption.
Qed.

Lemma requests_match_tool_witness :
  exists domain service,
    In ("control_switch", domain) domain_of_tool /\ In service (services_of domain) /\
    req_method (service_request "switch" "toggle" [("entity_id", JStr "switch.kitchen")])
    = POST /\
    req_endpoint (service_request "switch" "toggle" [("entity_id", JStr "switch.kitchen")])
    = ("services/" ++ domain ++ "/" ++ service)%string.
Proof.
  destruct (requests_match_tool sample_runtime unreachable "control_switch"
              [("entity_id", JStr "switch.kitchen"); ("action", JStr "toggle")]
              (service_request "switch" "toggle" [("entity_id", JStr "switch.kitchen")])
              (or_introl eq_refl)) as [[Hname _] | H].
  - exfalso. apply Hname. simpl. tauto.
  - exact H.
Defined.

(** X3.  A service body is built from the call and nothing else: it
    holds [entity_id] with the value of the call, and every field is one
    of [entity_id], [brightness], [color_temp], [temperature],
    [hvac_mode], bound to the value the call carries for it ([mode] for
    [hvac_mode]).  Other parameters of the call are never forwarded. *)
Theorem payload_built_from_call (rt : runtime) (be : backend)
        (name : string) (arguments : dict) (r : request) (data : dict) :
  In r (snd (run be (call_tool rt name arguments))) ->
  req_json r = Some data ->
  dict_lookup "entity_id" data = Some (dict_get "entity_id" arguments) /\
  forall k v, In (k, v) data ->
              In k payload_keys /\ dict_get (source_key k) arguments = v.
Proof.
  intros Hr Hdata. pose proof (call_tool_traffic rt be name arguments) as H.
  destruct (accepted name arguments); [| rewrite H in Hr; destruct Hr].
  destruct H as [r' [Htrace Hperm]]. rewrite Htrace in Hr.
  destruct Hr as [<- | []].
  destruct Hperm as [[_ ->] | [[_ ->] | [domain [service [data' [_ [_ [-> Hp]]]]]]]];
    try discriminate Hdata.
  simpl in Hdata. injection Hdata as <-. exact Hp.
Qed.

Lemma payload_built_from_call_witness :
  dict_lookup "entity_id"
    [("entity_id", JStr "climate.hall"); ("temperature", JInt 21)] =
  Some (JStr "climate.hall") /\
  forall k v,
    In (k, v) [("entity_id", JStr "climate.hall"); ("temperature", JInt 21)] ->
    In k payload_keys /\
    dict_get (source_key k)
      [("entity_id", JStr "climate.hall"); ("action", JStr "set_temperature");
       ("temperature", JInt 21); ("transition", JInt 5)] = v.
Proof.
  exact (payload_built_from_call sample_runtime unreachable "control_climate"
           [("entity_id", JStr "climate.hall"); ("action", JStr "set_temperature");
            ("temperature", JInt 21); ("transition", JInt 5)]
           (service_request "climate" "set_temperature"
              [("entity_id", JStr "climate.hall"); ("temperature", JInt 21)])
           [("entity_id", JStr "climate.hall"); ("temperature", JInt 21)]
           (or_introl eq_refl) eq_refl).
Defined.

(** *** What the dispatcher reads *)

(** X4.  The dispatcher reads seven parameters and no other: two calls
    of a tool whose arguments agree on [device_type], [entity_id],
    [action], [brightness], [color_temp], [temperature] and [mode] are
    handled alike, whatever else they carry and in whatever order. *)
Theorem unread_parameters_ignored (rt : runtime) (name : string)
        (arguments arguments' : dict) :
  (forall k, In k read_keys -> dict_lookup k arguments = dict_lookup k arguments') ->
  call_tool rt name arguments = call_tool rt name arguments'.
Proof.
  intro Hsame.
  assert (Hget : forall k, In k read_keys -> dict_get k arguments = dict_get k arguments').
  { intros k Hk. unfold dict_get, dict_get_default. rewrite (Hsame k Hk). reflexivity. }
  unfold call_tool, dispatch, tool_get_devices_by_type, tool_get_device_state,
    tool_control_light, tool_control_switch, tool_control_climate, copy_if_present.
  rewrite (Hget "device_type"), (Hget "entity_id"), (Hget "action") by (simpl; tauto).
  rewrite (Hsame "brightness"), (Hsame "color_temp"), (Hsame "temperature"),
    (Hsame "mode") by (simpl; tauto).
  reflexivity.
Qed.

Lemma unread_parameters_ignored_witness :
  call_tool sample_runtime "control_switch"
    [("transition", JInt 2); ("action", JStr "toggle");
     ("entity_id", JStr "switch.kitchen")] =
  call_tool sample_runtime "control_switch"
    [("entity_id", JStr "switch.kitchen"); ("action", JStr "toggle")].
Proof.
  apply unread_parameters_ignored.
  intros k [<- | [<- | [<- | [<- | [<- | [<- | [<- | []]]]]]]]; reflexivity.
Defined.

(** *** The branches the claims leave out *)

(** X5.  [control_climate] with a non-empty [entity_id], the action
    [set_temperature] and a [temperature] sends exactly one request, a
    POST to [services/climate/set_temperature] whose body is [entity_id]
    followed by [temperature] with the value of the call, whatever that
    value is: the parameter is tested for presence, not for emptiness,
    so a null or a zero is forwarded too. *)
Theorem climate_set_temperature_invocation (rt : runtime) (be : backend)
        (arguments : dict) (temperature : json) :
  truthy (dict_get "entity_id" arguments) = true ->
  dict_get "action" arguments = JStr "set_temperature" ->
  dict_lookup "temperature" arguments = Some temperature ->
  let entity_id := dict_get "entity_id" arguments in
  let invocation :=
    {| req_method := POST;
       req_endpoint := "services/climate/set_temperature";
       req_json := Some [("entity_id", entity_id); ("temperature", temperature)] |} in
  run be (call_tool rt "control_climate" arguments) =
  (Ok (text_content
         ("Climate " ++ py_str rt entity_id ++ " set_temperature result:" ++ nl
            ++ json_dumps rt (gateway_result (be [] invocation)))),
   [invocation]).
Proof.
  intros He Ha Ht. cbv zeta.
  assert (Hdispatch := control_climate_validated rt arguments He).
  rewrite Ha in Hdispatch. specialize (Hdispatch eq_refl).
  cbv zeta in Hdispatch. decide_actions Hdispatch. rewrite Ht in Hdispatch.
  exact (run_call_tool_service rt be _ _ _ _ _ _ Hdispatch).
Qed.

Lemma climate_set_temperature_invocation_witness :
  run (answering (JList []))
      (call_tool sample_runtime "control_climate"
         [("entity_id", JStr "climate.hall"); ("action", JStr "set_temperature");
          ("temperature", JInt 0)]) =
  (Ok (text_content ("Climate climate.hall set_temperature result:" ++ nl ++ "[]")),
   [ {| req_method := POST;
        req_endpoint := "services/climate/set_temperature";
        req_json := Some [("entity_id", JStr "climate.hall");
                          ("temperature", JInt 0)] |} ]).
Proof.
  exact (climate_set_temperature_invocation sample_runtime (answering (JList []))
           [("entity_id", JStr "climate.hall"); ("action", JStr "set_temperature");
            ("temperature", JInt 0)]
           (JInt 0) eq_refl eq_refl eq_refl).
Defined.

(** X6.  [get_device_state] with a non-empty [entity_id] sends exactly
    one request, a GET of [states/<entity_id>] without a body, and
    answers [Device <entity_id> state:] followed by what the gateway
    returned, printed as it is: the state object, or whatever else the
    backend answered. *)
Theorem device_state_fetched (rt : runtime) (be : backend) (arguments : dict) :
  truthy (dict_get "entity_id" arguments) = true ->
  let entity_id := dict_get "entity_id" arguments in
  let fetch :=
    {| req_method := GET;
       req_endpoint := "states/" ++ py_str rt entity_id;
       req_json := None |} in
  run be (call_tool rt "get_device_state" arguments) =
  (Ok (text_content
         ("Device " ++ py_str rt entity_id ++ " state:" ++ nl
            ++ json_dumps rt (gateway_result (be [] fetch)))),
   [fetch]).
Proof.
  intro He. cbv zeta. rewrite run_call_tool.
  change (dispatch rt "get_device_state" arguments)
    with (tool_get_device_state rt arguments).
  unfold tool_get_device_state, run. rewrite He. simpl negb. cbv iota zeta.
  rewrite run_from_bind, run_get_state. reflexivity.
Qed.

Lemma device_state_fetched_witness :
  run (answering kitchen)
      (call_tool sample_runtime "get_device_state"
         [("entity_id", JStr "switch.kitchen")]) =
  (Ok (text_content
         ("Device switch.kitchen state:" ++ nl ++ sample_dumps "" kitchen)),
   [ {| req_method := GET; req_endpoint := "states/switch.kitchen";
        req_json := None |} ]).
Proof.
  exact (device_state_fetched sample_runtime (answering kitchen)
           [("entity_id", JStr "switch.kitchen")] eq_refl).
Defined.

(** X7.  A parameter the dispatcher tests for emptiness is missing as
    soon as its value is falsy: [device_type] for [get_devices_by_type],
    [entity_id] for [get_device_state], [entity_id] and [action] for the
    control tools.  Absent, null, [false], zero, the empty string, the
    empty list and the empty object all get the tool's "required" text,
    and nothing is sent. *)
Theorem falsy_parameter_rejected (rt : runtime) (be : backend)
        (name k : string) (arguments : dict) :
  In (name, k)
     [("get_devices_by_type", "device_type"); ("get_device_state", "entity_id");
      ("control_light", "entity_id"); ("control_switch", "entity_id");
      ("control_climate", "entity_id"); ("control_light", "action");
      ("control_switch", "action"); ("control_climate", "action")] ->
  truthy (dict_get k arguments) = false ->
  run be (call_tool rt name arguments) = (Ok (text_content (missing_text name)), []).
Proof.
  intros Hin Hk. simpl in Hin.
  repeat (destruct Hin as [Hin | Hin]; [injection Hin as <- <- |]);
    try contradiction;
    apply run_call_tool_pure;
    first [ apply get_devices_by_type_requires; assumption
          | apply get_device_state_requires; assumption
          | apply control_light_requires; auto
          | apply control_switch_requires; auto
          | apply control_climate_requires; auto ].
Qed.

Lemma falsy_parameter_rejected_witness :
  run (answering (JList [living_room]))
      (call_tool sample_runtime "get_devices_by_type" [("device_type", JInt 0)]) =
  (Ok (text_content "Error: device_type is required"), []).
Proof.
  exact (falsy_parameter_rejected sample_runtime (answering (JList [living_room]))
           "get_devices_by_type" "device_type" [("device_type", JInt 0)]
           (or_introl eq_refl) eq_refl).
Defined.

(** *** State lists *)

Lemma for_each_device_entry_objects (states : list json) :
  Forall (fun v => is_object v = true) states ->
  for_each device_entry states = Ret (map entry_of states).
Proof.
  induction 1 as [| state states Hobj _ IH]; simpl.
  - reflexivity.
  - destruct state; try discriminate Hobj. simpl. rewrite IH. reflexivity.
Qed.

Lemma for_each_device_entry_fault (pre post : list json) (v : json) :
  Forall (fun v => is_object v = true) pre ->
  is_object v = false ->
  for_each device_entry (pre ++ v :: post) = Raise (AttributeError (type_name v) "get").
Proof.
  intros Hpre Hv. induction Hpre as [| state pre Hobj _ IH]; simpl.
  - destruct v; try discriminate Hv; reflexivity.
  - destruct state; try discriminate Hobj. simpl. rewrite IH. reflexivity.
Qed.

Lemma filter_m_fault (p : string) (pre post : list json) (bad : json) (e : exn) :
  Forall device_state pre ->
  entity_id_fault bad = Some e ->
  filter_m (fun state =>
              x <- py_get state "entity_id" (JStr "") ;; py_startswith x p)
           (pre ++ bad :: post)
  = Raise e.
Proof.
  intros Hpre Hbad. induction Hpre as [| state pre [m [s [-> Hs]]] _ IH]; simpl.
  - destruct bad; simpl in *; try (injection Hbad as <-; reflexivity).
    destruct (dict_get_default "entity_id" (JStr "") m);
      simpl in *; try (injection Hbad as <-; reflexivity).
    discriminate Hbad.
  - rewrite Hs, IH. reflexivity.
Qed.

(** X8.  [get_all_devices] lists every state the backend sent when all
    of them are objects, whatever they hold: one entry per state, in the
    order received, under the number of states; an entry has exactly
    the fields [entity_id], [state] and [attributes], a missing
    [entity_id] or [state] printed as null and missing [attributes] as
    the empty object. *)
Theorem all_devices_listed (rt : runtime) (be : backend)
        (states : list json) (arguments : dict) :
  be [] states_request = Response (JList states) ->
  Forall (fun v => is_object v = true) states ->
  run be (call_tool rt "get_all_devices" arguments) =
  (Ok (text_content
         ("Found " ++ str_nat (length states) ++ " devices:" ++ nl
            ++ json_dumps rt (JList (map entry_of states)))),
   [states_request]).
Proof.
  intros Hbe Hobj. rewrite run_call_tool.
  change (dispatch rt "get_all_devices" arguments) with (tool_get_all_devices rt).
  unfold tool_get_all_devices, run.
  rewrite run_from_bind, run_get_states, Hbe. simpl states_of.
  rewrite (for_each_device_entry_objects states Hobj). simpl.
  rewrite length_map. reflexivity.
Qed.

Lemma all_devices_listed_witness :
  run (answering (JList [JObj [("entity_id", JNull)]; kitchen]))
      (call_tool sample_runtime "get_all_devices" []) =
  (Ok (text_content
         ("Found 2 devices:" ++ nl
            ++ sample_dumps ""
                 (JList [JObj [("entity_id", JNull); ("state", JNull);
                               ("attributes", JObj [])];
                         JObj [("entity_id", JStr "switch.kitchen");
                               ("state", JStr "off"); ("attributes", JObj [])]]))),
   [states_request]).
Proof.
  refine (all_devices_listed sample_runtime
            (answering (JList [JObj [("entity_id", JNull)]; kitchen]))
            [JObj [("entity_id", JNull)]; kitchen] [] eq_refl _).
  repeat constructor.
Defined.

(** X9.  One element of the state list that is not an object makes
    [get_all_devices] answer [Error: '<type>' object has no attribute
    'get'] with the type of the first such element, in place of the
    whole list; the request has been sent by then. *)
Theorem all_devices_fault (rt : runtime) (be : backend)
        (pre post : list json) (v : json) (arguments : dict) :
  be [] states_request = Response (JList (pre ++ v :: post)) ->
  Forall (fun v => is_object v = true) pre ->
  is_object v = false ->
  run be (call_tool rt "get_all_devices" arguments) =
  (Ok (text_content
         ("Error: '" ++ type_name v ++ "' object has no attribute 'get'")),
   [states_request]).
Proof.
  intros Hbe Hpre Hv. rewrite run_call_tool.
  change (dispatch rt "get_all_devices" arguments) with (tool_get_all_devices rt).
  unfold tool_get_all_devices, run.
  rewrite run_from_bind, run_get_states, Hbe. simpl states_of.
  rewrite (for_each_device_entry_fault pre post v Hpre Hv). reflexivity.
Qed.

Lemma all_devices_fault_witness :
  run (answering (JList [living_room; JStr "switch.kitchen"; hall]))
      (call_tool sample_runtime "get_all_devices" []) =
  (Ok (text_content "Error: 'str' object has no attribute 'get'"), [states_request]).
Proof.
  refine (all_devices_fault sample_runtime
            (answering (JList [living_room; JStr "switch.kitchen"; hall]))
            [living_room] [hall] (JStr "switch.kitchen") [] eq_refl _ eq_refl).
  repeat constructor.
Defined.

(** X10.  [get_devices_by_type] is stricter than [get_all_devices] on
    the states: the first state that is not an object, or whose
    [entity_id] is there and is not a string, makes the tool answer
    [Error: <message of the fault>] ([... has no attribute 'get'] for
    the former, [... has no attribute 'startswith'] with the type of the
    [entity_id] for the latter), after the request has been sent. *)
Theorem devices_by_type_fault (rt : runtime) (be : backend)
        (pre post : list json) (bad : json) (e : exn) (arguments : dict) :
  be [] states_request = Response (JList (pre ++ bad :: post)) ->
  Forall device_state pre ->
  entity_id_fault bad = Some e ->
  truthy (dict_get "device_type" arguments) = true ->
  run be (call_tool rt "get_devices_by_type" arguments) =
  (Ok (text_content ("Error: " ++ exn_str e)), [states_request]).
Proof.
  intros Hbe Hpre Hbad Ht. rewrite run_call_tool.
  change (dispatch rt "get_devices_by_type" arguments)
    with (tool_get_devices_by_type rt arguments).
  unfold tool_get_devices_by_type, get_devices_by_type, run.
  rewrite Ht. simpl negb. cbv iota zeta.
  rewrite !run_from_bind, run_get_states, Hbe. simpl states_of.
  rewrite (filter_m_fault _ pre post bad e Hpre Hbad). reflexivity.
Qed.

Lemma devices_by_type_fault_witness :
  run (answering (JList [JObj [("entity_id", JNull)]; kitchen]))
      (call_tool sample_runtime "get_devices_by_type" [("device_type", JStr "switch")]) =
  (Ok (text_content "Error: 'NoneType' object has no attribute 'startswith'"),
   [states_request]).
Proof.
  exact (devices_by_type_fault sample_runtime
           (answering (JList [JObj [("entity_id", JNull)]; kitchen]))
           [] [kitchen] (JObj [("entity_id", JNull)])
           (AttributeError "NoneType" "startswith")
           [("device_type", JStr "switch")] eq_refl (Forall_nil _) eq_refl eq_refl).
Defined.

(** *** Types and domains *)

Lemma ascii_eqb_sym (a b : ascii) : Ascii.eqb a b = Ascii.eqb b a.
Proof.
  destruct (Ascii.eqb_spec a b) as [-> | Hab].
  - symmetry. apply Ascii.eqb_refl.
  - symmetry. apply Ascii.eqb_neq. congruence.
Qed.

Lemma startswith_domain (t : string) :
  has_dot t = false ->
  forall s, startswith s (t ++ ".") = has_dot s && String.eqb (domain_of s) t.
Proof.
  induction t as [| c t IH]; cbn [append has_dot]; intros Ht s.
  - destruct s as [| d s]; cbn [startswith has_dot domain_of]; [reflexivity |].
    rewrite (ascii_eqb_sym "." d).
    destruct (Ascii.eqb d ".").
    + destruct s; reflexivity.
    + cbn [String.eqb]. rewrite andb_false_r. reflexivity.
  - destruct (Ascii.eqb c ".") eqn:Ec; [discriminate Ht |].
    destruct s as [| d s]; cbn [startswith has_dot domain_of]; [reflexivity |].
    destruct (Ascii.eqb d ".") eqn:Ed.
    + apply Ascii.eqb_eq in Ed. subst d. rewrite Ec. reflexivity.
    + cbn [String.eqb]. rewrite (ascii_eqb_sym d c), (IH Ht s).
      destruct (Ascii.eqb c d), (has_dot s); reflexivity.
Qed.

(** X11.  The type filter matches the domain exactly.  When every
    state the backend sent is an object whose [entity_id] is a string or
    is absent, then for a type without a dot [get_devices_by_type]
    returns the states whose [entity_id] has a dot and has the type as
    the whole of what precedes the first dot: [light] selects [light.x],
    and neither [lights.x] nor [light_group.x] nor an id without a
    dot. *)
Theorem devices_by_type_is_by_domain (rt : runtime) (be : backend)
        (t : string) (states : list json) :
  be [] states_request = Response (JList states) ->
  Forall device_state states ->
  has_dot t = false ->
  run be (get_devices_by_type rt (JStr t)) =
  (Ok (filter (in_domain t) states), [states_request]).
Proof.
  intros Hbe Hstates Ht.
  unfold get_devices_by_type, run.
  rewrite run_from_bind, run_get_states, Hbe. simpl states_of. simpl py_str.
  rewrite (filter_m_startswith _ states Hstates). simpl. f_equal. f_equal.
  apply filter_ext_in. intros state Hin.
  rewrite Forall_forall in Hstates.
  destruct (Hstates state Hin) as [m [s [-> Hs]]]. simpl. rewrite Hs.
  apply startswith_domain, Ht.
Qed.

Lemma devices_by_type_is_by_domain_witness :
  run (answering
         (JList [JObj [("entity_id", JStr "lights.porch")]; living_room;
                 JObj [("entity_id", JStr "light")];
                 JObj [("entity_id", JStr "light_group.all")]]))
      (get_devices_by_type sample_runtime (JStr "light")) =
  (Ok [living_room], [states_request]).
Proof.
  refine (devices_by_type_is_by_domain sample_runtime
            (answering
               (JList [JObj [("entity_id", JStr "lights.porch")]; living_room;
                       JObj [("entity_id", JStr "light")];
                       JObj [("entity_id", JStr "light_group.all")]]))
            "light"
            [JObj [("entity_id", JStr "lights.porch")]; living_room;
             JObj [("entity_id", JStr "light")];
             JObj [("entity_id", JStr "light_group.all")]]
            eq_refl _ eq_refl).
  repeat apply Forall_cons; try apply Forall_nil; eexists _, _; split; reflexivity.
Defined.

(** *** The gateway *)

(** X12.  [call_ha_api] knows the methods [GET] and [POST], spelled in
    capitals, and no other: for any other method it sends nothing and
    returns the object [{error: Unsupported HTTP method: <method>}]
    instead of raising. *)
Theorem unsupported_method_reported (be : backend) (sent : list request)
        (endpoint method : string) (data : option dict) :
  method <> "GET" -> method <> "POST" ->
  run_from be sent (call_ha_api endpoint method data) =
  (Ok (error_dict ("Unsupported HTTP method: " ++ method)), sent).
Proof.
  intros Hget Hpost. unfold call_ha_api.
  destruct (String.eqb_spec method "GET") as [E | _]; [contradiction |].
  destruct (String.eqb_spec method "POST") as [E | _]; [contradiction |].
  reflexivity.
Qed.

Lemma unsupported_method_reported_witness :
  run_from unreachable [] (call_ha_api "states" "get" None) =
  (Ok (error_dict "Unsupported HTTP method: get"), []).
Proof.
  refine (unsupported_method_reported unreachable [] "states" "get" None _ _);
    discriminate.
Defined.

(** *** Settings *)

Lemma lower_ascii_letter (lo up c : ascii) :
  In (lo, up) [("t", "T"); ("r", "R"); ("u", "U"); ("e", "E")]%char ->
  lower_ascii c = lo <-> c = lo \/ c = up.
Proof.
  intro Hin. simpl in Hin.
  destruct Hin as [E | [E | [E | [E | []]]]]; injection E as <- <-;
    destruct c as [[] [] [] [] [] [] [] []]; vm_compute;
    (split; [intro H; first [discriminate H | auto] | intros [H | H]; first [discriminate H | reflexivity]]).
Qed.

Lemma lower_is_true (s : string) :
  lower s = "true" <->
  exists a b c d,
    s = String a (String b (String c (String d EmptyString))) /\
    (a = "t" \/ a = "T")%char /\ (b = "r" \/ b = "R")%char /\
    (c = "u" \/ c = "U")%char /\ (d = "e" \/ d = "E")%char.
Proof.
  split.
  - destruct s as [| a [| b [| c [| d [| x s]]]]]; cbn [lower]; intro H;
      try discriminate H.
    injection H as Ha Hb Hc Hd.
    exists a, b, c, d. split; [reflexivity |].
    repeat split;
      [ apply (lower_ascii_letter "t" "T") | apply (lower_ascii_letter "r" "R")
      | apply (lower_ascii_letter "u" "U") | apply (lower_ascii_letter "e" "E") ];
      simpl; auto 6.
  - intros [a [b [c [d [-> [Ha [Hb [Hc Hd]]]]]]]]. cbn [lower].
    rewrite (proj2 (lower_ascii_letter "t" "T" a ltac:(simpl; auto 6)) Ha).
    rewrite (proj2 (lower_ascii_letter "r" "R" b ltac:(simpl; auto 6)) Hb).
    rewrite (proj2 (lower_ascii_letter "u" "U" c ltac:(simpl; auto 6)) Hc).
    rewrite (proj2 (lower_ascii_letter "e" "E" d ltac:(simpl; auto 6)) Hd).
    reflexivity.
Qed.

(** X13.  Certificate verification is on in two cases only: the variable
    [VERIFY_SSL] is not set, or its value spells [true] in some mix of
    capitals and small letters.  Every other value switches it off:
    [1], [yes], [on], the empty string, [true] with a space around
    it. *)
Theorem verify_ssl_only_when_true (env : environ) :
  VERIFY_SSL (load_settings env) = true <->
  env "VERIFY_SSL" = None \/
  exists a b c d,
    env "VERIFY_SSL" = Some (String a (String b (String c (String d EmptyString)))) /\
    (a = "t" \/ a = "T")%char /\ (b = "r" \/ b = "R")%char /\
    (c = "u" \/ c = "U")%char /\ (d = "e" \/ d = "E")%char.
Proof.
  unfold load_settings, getenv. cbn [VERIFY_SSL].
  destruct (env "VERIFY_SSL") as [s |].
  - rewrite String.eqb_eq, lower_is_true. split.
    + intros [a [b [c [d [-> H]]]]]. right. exists a, b, c, d. auto.
    + intros [H | [a [b [c [d [H Hl]]]]]]; [discriminate H |].
      injection H as ->. exists a, b, c, d. auto.
  - split; [auto | reflexivity].
Qed.
